(** * Chatbot backend: request admission, authentication and chat turns

    A shallow embedding of [backend/app_fastapi.py].

    Conventions of the embedding.
    - Instants ([time.time()], [datetime.now()], the [exp] claim of a
      token) are integers counting whole seconds; [datetime.utcnow()] is
      read with its microsecond, which [jwt] drops from the [exp] claim.
    - A Python [dict] keyed by strings is a [gmap string _]; a MongoDB
      collection is the list of its documents in insertion order.
    - A handler is a function of the clock readings and of the process
      state that returns a result (a value or a raised exception) and the
      next state.
    - The libraries the handlers call are modelled by what they do for these
      handlers: [jwt] (as current PyJWT) with an ideal signature under the
      key HMAC-SHA256 works with, the store driver with calls that either
      answer or raise, the model as a function of the prompt. *)

From Stdlib Require Import ZArith QArith Lia.
From stdpp Require Import gmap strings pretty list sorting.

Local Open Scope Z_scope.

(** ** Rate limiting *)

Module RateLimiting.

(** [class RateLimiter]: the configured limit and, per client address,
    the list of recorded instants. *)
Record RateLimiter : Type := {
  requests_per_minute : Z;
  requests : gmap string (list Z)
}.

(** [RateLimiter.__init__] *)
Definition init (requests_per_minute : Z) : RateLimiter :=
  {| requests_per_minute := requests_per_minute; requests := ∅ |}.

(** [rate_limiter = RateLimiter()] *)
Definition rate_limiter : RateLimiter := init 60.

(** [[t for t in request_times if current_time - t < 60]] *)
Definition prune (current_time : Z) (request_times : list Z) : list Z :=
  filter (λ t, current_time - t < 60) request_times.

(** [RateLimiter.check], with the reading of [time.time()] as an
    argument. *)
Definition check (client_ip : string) (current_time : Z)
    (self : RateLimiter) : bool * RateLimiter :=
  match requests self !! client_ip with
  | Some request_times =>
      let request_times := prune current_time request_times in
      if Z.of_nat (length request_times) >=? requests_per_minute self
      then (false, self)
      else (true,
            {| requests_per_minute := requests_per_minute self;
               requests := <[client_ip := request_times ++ [current_time]]>
                             (requests self) |})
  | None =>
      (true,
       {| requests_per_minute := requests_per_minute self;
          requests := <[client_ip := [current_time]]> (requests self) |})
  end.

(** The instants retained for a client; a client never seen has none. *)
Definition retained (client_ip : string) (self : RateLimiter) : list Z :=
  default [] (requests self !! client_ip).

(** A sequence of calls to [check], each with its client and instant. *)
Fixpoint run (calls : list (string * Z)) (self : RateLimiter)
    : RateLimiter :=
  match calls with
  | [] => self
  | (c, t) :: calls => run calls (check c t self).2
  end.

(** The instants of the calls of [client_ip] that [check] admitted. *)
Fixpoint admitted (client_ip : string) (calls : list (string * Z))
    (self : RateLimiter) : list Z :=
  match calls with
  | [] => []
  | (c, t) :: calls =>
      let r := check c t self in
      (if r.1 && bool_decide (c = client_ip) then [t] else [])
        ++ admitted client_ip calls r.2
  end.

(** Every stored list is no longer than the limit. *)
Definition bounded (self : RateLimiter) : Prop :=
  ∀ c l, requests self !! c = Some l →
         Z.of_nat (length l) ≤ requests_per_minute self.

End RateLimiting.

(** ** Exceptions, results and the handler monad *)

(** The subclasses of [jwt.PyJWTError] that [jwt.decode] raises here. *)
Inductive jwt_error : Type :=
| DecodeError
| InvalidAlgorithmError
| InvalidSignatureError
| ExpiredSignatureError.

(** Python exceptions: [fastapi.HTTPException], [jwt.PyJWTError] and any
    other [Exception], kept with the text [str(e)] gives. *)
Inductive exn : Type :=
| HTTPException (status_code : Z) (detail : string)
    (headers : option (list (string * string)))
| PyJWTError (e : jwt_error)
| Exception (msg : string).

Inductive result (A : Type) : Type :=
| Return (a : A)
| Raise (e : exn).
Arguments Return {A} a.
Arguments Raise {A} e.

(** [str(e)] *)
Definition str (e : exn) : string :=
  match e with
  | HTTPException _ detail _ => detail
  | PyJWTError DecodeError => "Not enough segments"
  | PyJWTError InvalidAlgorithmError => "The specified alg value is not allowed"
  | PyJWTError InvalidSignatureError => "Signature verification failed"
  | PyJWTError ExpiredSignatureError => "Signature has expired"
  | Exception msg => msg
  end.

(** ** SHA-256 ([hashlib]) and the key of HMAC ([hmac]) *)

Module hashlib.

Local Open Scope N_scope.

(** Arithmetic on 32-bit words. *)
Definition word (x : N) : N := x mod 2 ^ 32.
Definition add (x y : N) : N := word (x + y).
Definition rotr (n x : N) : N :=
  word (N.lor (N.shiftr x n) (N.shiftl x (32 - n))).
Definition complement (x : N) : N := N.lxor x 0xffffffff.

(** The functions of FIPS 180-4, section 4.1.2. *)
Definition Ch (x y z : N) : N :=
  N.lxor (N.land x y) (N.land (complement x) z).
Definition Maj (x y z : N) : N :=
  N.lxor (N.lxor (N.land x y) (N.land x z)) (N.land y z).
Definition Sigma0 (x : N) : N :=
  N.lxor (N.lxor (rotr 2 x) (rotr 13 x)) (rotr 22 x).
Definition Sigma1 (x : N) : N :=
  N.lxor (N.lxor (rotr 6 x) (rotr 11 x)) (rotr 25 x).
Definition sigma0 (x : N) : N :=
  N.lxor (N.lxor (rotr 7 x) (rotr 18 x)) (N.shiftr x 3).
Definition sigma1 (x : N) : N :=
  N.lxor (N.lxor (rotr 17 x) (rotr 19 x)) (N.shiftr x 10).

(** The first [n] primes, by trial division. *)
Definition is_prime (p : N) : bool :=
  forallb (λ d, negb (p mod N.of_nat d =? 0)) (seq 2 (N.to_nat p - 2)).

Definition primes (n : nat) : list N :=
  take n (filter (λ p, is_prime p = true) (N.of_nat <$> seq 2 400)).

(** The integer cube root of a number below 2 ^ 108, bit by bit. *)
Definition cube_root (x : N) : N :=
  foldl (λ r bit, let r' := r + 2 ^ N.of_nat bit in
                  if r' * r' * r' <=? x then r' else r)
    0 (reverse (seq 0 36)).

(** The round constants: the first 32 bits of the fractional parts of the
    cube roots of the first 64 primes. The initial hash value: those of the
    square roots of the first 8 primes. *)
Definition K : list N :=
  (λ p, word (cube_root (p * 2 ^ 96))) <$> primes 64.

Definition H0 : list N :=
  (λ p, word (N.sqrt (p * 2 ^ 64))) <$> primes 8.

(** The message with its padding: a byte 0x80, NUL bytes up to 56 modulo
    64, and the length in bits as eight bytes, most significant first. *)
Definition big_endian (width : nat) (x : N) : list N :=
  (λ i, N.shiftr x (8 * N.of_nat i) mod 256) <$> reverse (seq 0 width).

Definition pad (message : list N) : list N :=
  let len := length message in
  let zeros := ((64 - (len + 9) `mod` 64) `mod` 64)%nat in
  message ++ [0x80] ++ replicate zeros 0 ++ big_endian 8 (8 * N.of_nat len).

(** The number a list of bytes denotes, most significant first. *)
Definition of_bytes (bytes : list N) : N :=
  foldl (λ acc b, 256 * acc + b) 0 bytes.

(** The lists of [n] elements a list splits into. *)
Fixpoint chunks {A : Type} (n count : nat) (l : list A) : list (list A) :=
  match count with
  | O => []
  | S count => take n l :: chunks n count (drop n l)
  end.

(** The message schedule; [recent] holds the words so far, the last one
    first. *)
Fixpoint schedule (more : nat) (recent : list N) : list N :=
  match more with
  | O => reverse recent
  | S more =>
      let w := add (add (sigma1 (recent !!! 1%nat)) (recent !!! 6%nat))
                 (add (sigma0 (recent !!! 14%nat)) (recent !!! 15%nat)) in
      schedule more (w :: recent)
  end.

(** One round on the working variables [a] to [h]. *)
Definition round (state : list N) (kw : N * N) : list N :=
  match state with
  | [a; b; c; d; e; f; g; h] =>
      let t1 := add (add (add h (Sigma1 e)) (add (Ch e f g) kw.1)) kw.2 in
      let t2 := add (Sigma0 a) (Maj a b c) in
      [add t1 t2; a; b; c; add d t1; e; f; g]
  | _ => state
  end.

(** The hash value after one more block of 64 bytes. *)
Definition compress (hash : list N) (block : list N) : list N :=
  let w := schedule 48 (reverse (of_bytes <$> chunks 4 16 block)) in
  zip_with add hash (foldl round hash (zip K w)).

Definition digest (message : list N) : list N :=
  let padded := pad message in
  mjoin (big_endian 4 <$>
           foldl compress H0 (chunks 64 (length padded `div` 64) padded)).

(** [hashlib.sha256(data).digest()] *)
Definition sha256 (data : string) : string :=
  String.string_of_list_ascii
    (Ascii.ascii_of_N <$>
       digest (Ascii.N_of_ascii <$> String.list_ascii_of_string data)).

(** [.hexdigest()] of a digest. *)
Definition hex (data : string) : string :=
  let digit (n : N) : string :=
    String.substring (N.to_nat n) 1 "0123456789abcdef" in
  String.concat ""
    ((λ c, digit (Ascii.N_of_ascii c / 16) +:+ digit (Ascii.N_of_ascii c mod 16))
       <$> String.list_ascii_of_string data).

End hashlib.

Module hmac.

(** [key.ljust(width, b"\0")] *)
Definition ljust (width : nat) (key : string) : string :=
  key +:+ String.string_of_list_ascii
            (replicate (width - String.length key) Ascii.zero).

(** The key [hmac.new(key, msg, hashlib.sha256)] works with (RFC 2104): a
    key longer than the block of 64 bytes is replaced by its digest, and the
    key is then filled up with NUL bytes to the block. *)
Definition block_key (key : string) : string :=
  ljust 64 (if (64 <? String.length key)%nat then hashlib.sha256 key
            else key).
Global Arguments block_key : simpl never.

End hmac.

(** ** Instants with their microsecond *)

(** A [datetime]: the whole seconds since the epoch and the microsecond
    within the second, from 0 to 999999. *)
Record datetime : Type := { epoch_second : Z; microsecond : Z }.

(** [d + timedelta(seconds=s)] *)
Definition datetime_add (d : datetime) (s : Z) : datetime :=
  {| epoch_second := epoch_second d + s; microsecond := microsecond d |}.

(** [a < b] and [a <= b] on datetimes. *)
Definition datetime_lt (a b : datetime) : Prop :=
  epoch_second a < epoch_second b
  ∨ (epoch_second a = epoch_second b ∧ microsecond a < microsecond b).

Definition datetime_le (a b : datetime) : Prop :=
  epoch_second a < epoch_second b
  ∨ (epoch_second a = epoch_second b ∧ microsecond a ≤ microsecond b).

(** The microsecond field is within its range. *)
Definition well_formed (d : datetime) : Prop := 0 ≤ microsecond d < 1000000.

(** ** Tokens ([jwt]) *)

Module jwt.

(** The claims the service writes and reads; tokens with other claims
    ([aud], [nbf], [iat], [iss]), which [jwt.decode] would validate as well,
    are outside the model. *)
Record Payload : Type := { sub : option string; exp : option Z }.

(** A token string is either text that is no signed token, or the
    serialisation of a header algorithm, a payload and a signature. The
    signature is an ideal MAC under the key HMAC works with: it is
    determined by the header, the payload and [hmac.block_key] of the key
    that made it, and it verifies under the keys with that same block key
    and under no other. *)
Inductive token : Type :=
| Unparsable (s : string)
| Signed (alg : string) (payload : Payload) (mac_key : string).

(** The number [jwt.encode] writes for a claim given as a datetime:
    [timegm(d.utctimetuple())], the whole seconds without the
    microsecond. *)
Definition numeric_date (d : datetime) : Z := epoch_second d.

(** [jwt.encode(payload, key, algorithm=...)], for a payload whose datetime
    claims are already the numbers [numeric_date] gives. *)
Definition encode (payload : Payload) (key : string) (algorithm : string)
    : token :=
  Signed algorithm payload (hmac.block_key key).

(** [jwt.decode(token, key, algorithms=...)] when the current instant has
    the whole second [now]: the header, then the signature, then the [exp]
    claim, expired when [exp <= now] as in current PyJWT (older versions
    test [exp < now]). The claim being a whole number, the comparison with
    the current instant and the comparison with its whole second agree. *)
Definition decode (t : token) (key : string) (algorithms : list string)
    (now : Z) : result Payload :=
  match t with
  | Unparsable _ => Raise (PyJWTError DecodeError)
  | Signed alg payload mac_key =>
      if negb (bool_decide (alg ∈ algorithms))
      then Raise (PyJWTError InvalidAlgorithmError)
      else if negb (String.eqb mac_key (hmac.block_key key))
      then Raise (PyJWTError InvalidSignatureError)
      else match exp payload with
           | Some e =>
               if e <=? now then Raise (PyJWTError ExpiredSignatureError)
               else Return payload
           | None => Return payload
           end
  end.

End jwt.

(** ** The document store *)

(** [ObjectId], which the store assigns on insertion; [str] of it is
    injective, so [str(user["_id"])] is modelled by the id itself. *)
Definition ObjectId : Type := N.

(** A document of [db.users]. *)
Record User : Type := {
  _id : ObjectId;
  username : string;
  email : string;
  password : string;
  created_at : Z
}.

(** A document of [db.conversations]. *)
Record Conversation : Type := {
  doc_id : ObjectId;
  user_id : ObjectId;
  user_message : string;
  bot_response : string;
  timestamp : Z
}.

(** The driver calls the handlers make. *)
Inductive db_op : Type :=
| users_find_one (username : string)
| users_insert_one (username : string)
| conversations_insert_one (user_id : ObjectId)
| conversations_find (user_id : ObjectId).

(** The store: both collections, the next id to assign, the outcome of the
    coming driver calls ([Some msg]: the call raises with that text; [None],
    or no entry: the store answers), and the calls made so far. *)
Record Database : Type := {
  users : list User;
  conversations : list Conversation;
  next_id : ObjectId;
  faults : list (option string);
  oplog : list db_op
}.

(** ** Process state and environment *)

(** [pipeline("text-generation", ...)]: called with the prompt,
    [max_length], [do_sample] and [temperature]; it returns the texts of
    the candidates or raises. *)
Definition Pipeline : Type := string → Z → bool → Q → result (list string).

(** What a handler reads: the signing secret ([JWT_SECRET]), the model
    loaded at start-up ([None] when loading failed), and the clocks:
    [time.time()], the whole second and the microsecond of
    [datetime.utcnow()], and [datetime.now()]. *)
Record Env : Type := {
  SECRET_KEY : string;
  model : option Pipeline;
  time_time : Z;
  datetime_utcnow : Z;
  utcnow_microsecond : Z;
  datetime_now : Z
}.

(** [datetime.utcnow()] *)
Definition utcnow (env : Env) : datetime :=
  {| epoch_second := datetime_utcnow env;
     microsecond := utcnow_microsecond env |}.

(** What a handler changes: the store and the limiter. *)
Record World : Type := {
  db : Database;
  rate_limiter : RateLimiting.RateLimiter
}.

Definition M (A : Type) : Type := Env → World → result A * World.

#[global] Instance M_ret : MRet M := λ A a _ w, (Return a, w).

#[global] Instance M_bind : MBind M := λ A B f m env w,
  match m env w with
  | (Return a, w') => f a env w'
  | (Raise e, w') => (Raise e, w')
  end.

Definition raise {A : Type} (e : exn) : M A := λ _ w, (Raise e, w).

(** [try: body / except <class> as e: handler e] *)
Definition try_except {A : Type} (body : M A) (caught : exn → bool)
    (handler : exn → M A) : M A := λ env w,
  match body env w with
  | (Raise e, w') => if caught e then handler e env w' else (Raise e, w')
  | r => r
  end.

Definition ask {A : Type} (f : Env → A) : M A := λ env w, (Return (f env), w).

Definition lift {A : Type} (r : result A) : M A := λ _ w, (r, w).

(** [except jwt.PyJWTError] *)
Definition is_PyJWTError (e : exn) : bool :=
  match e with PyJWTError _ => true | _ => false end.

(** [except Exception] *)
Definition is_Exception (e : exn) : bool := true.

(** ** Driver calls *)

(** The outcome the store has scheduled for the next call. *)
Definition next_fault (d : Database) : option string :=
  match faults d with
  | f :: _ => f
  | [] => None
  end.

(** Every driver call is logged and uses up one scheduled outcome. *)
Definition called (op : db_op) (d : Database) : Database :=
  {| users := users d; conversations := conversations d;
     next_id := next_id d; faults := tail (faults d);
     oplog := oplog d ++ [op] |}.

Definition with_db (w : World) (d : Database) : World :=
  {| db := d; rate_limiter := rate_limiter w |}.

(** A driver call: it raises when the store is down, and otherwise
    answers with [answer] on the store as it is. *)
Definition driver {A : Type} (op : db_op)
    (answer : Database → A * Database) : M A := λ _ w,
  let d := called op (db w) in
  match next_fault (db w) with
  | Some msg => (Raise (Exception msg), with_db w d)
  | None => let (a, d') := answer d in (Return a, with_db w d')
  end.

(** [db.users.find_one({"username": username})] *)
Definition db_users_find_one (name : string) : M (option User) :=
  driver (users_find_one name)
    (λ d, (List.find (λ u, String.eqb (username u) name) (users d), d)).

(** [db.users.insert_one(user_data)]; the store assigns [_id]. *)
Definition db_users_insert_one (name mail pass : string) (created : Z)
    : M ObjectId :=
  driver (users_insert_one name)
    (λ d, (next_id d,
           {| users := users d ++
                [{| _id := next_id d; username := name; email := mail;
                    password := pass; created_at := created |}];
              conversations := conversations d;
              next_id := N.succ (next_id d);
              faults := faults d; oplog := oplog d |})).

(** [db.conversations.insert_one({...})]; the store assigns [_id]. *)
Definition db_conversations_insert_one (uid : ObjectId)
    (message response : string) (stamp : Z) : M ObjectId :=
  driver (conversations_insert_one uid)
    (λ d, (next_id d,
           {| users := users d;
              conversations := conversations d ++
                [{| doc_id := next_id d; user_id := uid;
                    user_message := message; bot_response := response;
                    timestamp := stamp |}];
              next_id := N.succ (next_id d);
              faults := faults d; oplog := oplog d |})).

(** Descending order of [timestamp]: [newer_first a b] lets [a] come
    before [b]. *)
Definition newer_first (a b : Conversation) : Prop :=
  timestamp b ≤ timestamp a.

#[global] Instance newer_first_dec (a b : Conversation)
  : Decision (newer_first a b) := Z.le_dec (timestamp b) (timestamp a).

(** [.sort("timestamp", -1)] *)
Definition sort_desc (l : list Conversation) : list Conversation :=
  merge_sort newer_first l.

(** [db.conversations.find({"user_id": user_id}).sort("timestamp", -1)
    .limit(n)], run when the cursor is iterated. *)
Definition db_conversations_find_sort_limit (uid : ObjectId) (n : nat)
    : M (list Conversation) :=
  driver (conversations_find uid)
    (λ d, (take n (sort_desc
             (filter (λ doc, user_id doc = uid) (conversations d))), d)).

(** [rate_limiter.check(client_ip)] on the process-wide limiter. *)
Definition rate_limiter_check (client_ip : string) : M bool := λ env w,
  let (ok, rl) := RateLimiting.check client_ip (time_time env)
                    (rate_limiter w) in
  (Return ok, {| db := db w; rate_limiter := rl |}).

(** ** Request and response models *)

Module Message.
Record t : Type := { message : string }.
End Message.

Module UserCreate.
Record t : Type := { username : string; email : string; password : string }.
End UserCreate.

Module Token.
Record t : Type := { access_token : jwt.token; token_type : string }.
End Token.

Module ChatResponse.
Record t : Type := { message : string }.
End ChatResponse.

Module ChatHistory.
Record t : Type := {
  id : ObjectId;
  user_message : string;
  bot_response : string;
  timestamp : Z
}.
End ChatHistory.

(** ** Authentication *)

Definition ALGORITHM : string := "HS256".
Definition ACCESS_TOKEN_EXPIRE_MINUTES : Z := 30.

(** [timedelta(minutes=m)], in seconds. *)
Definition timedelta_minutes (m : Z) : Z := m * 60.

Definition credentials_exception : exn :=
  HTTPException 401 "Could not validate credentials"
    (Some [("WWW-Authenticate", "Bearer")]).

(** [oauth2_scheme]: the bearer token of the request, or 401 without one. *)
Definition oauth2_scheme (authorization : option jwt.token) : M jwt.token :=
  match authorization with
  | Some token => mret token
  | None =>
      raise (HTTPException 401 "Not authenticated"
               (Some [("WWW-Authenticate", "Bearer")]))
  end.

(** [get_current_user] *)
Definition get_current_user (token : jwt.token) : M User :=
  name ← try_except
    (key ← ask SECRET_KEY;
     now ← ask datetime_utcnow;
     payload ← lift (jwt.decode token key [ALGORITHM] now);
     match jwt.sub payload with
     | None => raise credentials_exception
     | Some name => mret name
     end)
    is_PyJWTError
    (λ _, raise credentials_exception);
  user ← db_users_find_one name;
  match user with
  | None => raise credentials_exception
  | Some user => mret user
  end.

(** ** Middleware *)

(** [rate_limit_middleware]; [call_next] is the rest of the handling. *)
Definition rate_limit_middleware {A : Type} (client_ip : string)
    (call_next : M A) : M A :=
  ok ← rate_limiter_check client_ip;
  if negb ok then raise (HTTPException 429 "Too many requests" None)
  else call_next.

(** ** Routes *)

(** [result[0]] *)
Definition first_candidate (candidates : list string) : M string :=
  match candidates with
  | text :: _ => mret text
  | [] => raise (Exception "list index out of range")
  end.

(** [chat] *)
Definition chat (message : Message.t) (user : User) : M ChatResponse.t :=
  loaded ← ask model;
  match loaded with
  | None => raise (HTTPException 503 "Model not loaded" None)
  | Some generate =>
      try_except
        (candidates ← lift (generate (Message.message message) 100 true
                              (7 # 10)%Q);
         bot_response ← first_candidate candidates;
         now ← ask datetime_now;
         db_conversations_insert_one (_id user) (Message.message message)
           bot_response now;;
         mret {| ChatResponse.message := bot_response |})
        is_Exception
        (λ e, raise (HTTPException 500 (str e) None))
  end.

(** [register]; the answer is the text of its [message]. *)
Definition register (user : UserCreate.t) : M string :=
  existing ← db_users_find_one (UserCreate.username user);
  match existing with
  | Some _ => raise (HTTPException 400 "Username already registered" None)
  | None =>
      let hashed_password := UserCreate.password user in
      now ← ask datetime_now;
      db_users_insert_one (UserCreate.username user) (UserCreate.email user)
        hashed_password now;;
      mret "User created successfully"
  end.

(** [not user or user["password"] != password] *)
Definition bad_credentials (user : option User) (pass : string) : bool :=
  match user with
  | None => true
  | Some user => negb (String.eqb (password user) pass)
  end.

(** [login] *)
Definition login (name pass : string) : M Token.t :=
  user ← db_users_find_one name;
  if bad_credentials user pass
  then raise (HTTPException 401 "Incorrect username or password" None)
  else
    let access_token_expires := timedelta_minutes ACCESS_TOKEN_EXPIRE_MINUTES in
    utcnow ← ask utcnow;
    let expires := datetime_add utcnow access_token_expires in
    let payload := {| jwt.sub := Some name;
                      jwt.exp := Some (jwt.numeric_date expires) |} in
    key ← ask SECRET_KEY;
    let access_token := jwt.encode payload key ALGORITHM in
    mret {| Token.access_token := access_token;
            Token.token_type := "bearer" |}.

(** The entry [get_history] builds from a document. *)
Definition history_entry (doc : Conversation) : ChatHistory.t :=
  {| ChatHistory.id := doc_id doc;
     ChatHistory.user_message := user_message doc;
     ChatHistory.bot_response := bot_response doc;
     ChatHistory.timestamp := timestamp doc |}.

(** [get_history] *)
Definition get_history (user : User) : M (list ChatHistory.t) :=
  let uid := _id user in
  docs ← db_conversations_find_sort_limit uid 50;
  mret (history_entry <$> docs).

(** ** Requests through the application *)

(** [POST /api/chat]: the middleware, then the dependencies of the route,
    then the route. *)
Definition post_api_chat (client_ip : string)
    (authorization : option jwt.token) (message : Message.t)
    : M ChatResponse.t :=
  rate_limit_middleware client_ip
    (token ← oauth2_scheme authorization;
     user ← get_current_user token;
     chat message user).

(** [GET /api/history] *)
Definition get_api_history (client_ip : string)
    (authorization : option jwt.token) : M (list ChatHistory.t) :=
  rate_limit_middleware client_ip
    (token ← oauth2_scheme authorization;
     user ← get_current_user token;
     get_history user).

(** [POST /api/register] *)
Definition post_api_register (client_ip : string) (user : UserCreate.t)
    : M string :=
  rate_limit_middleware client_ip (register user).

(** [POST /api/login] *)
Definition post_api_login (client_ip : string) (name pass : string)
    : M Token.t :=
  rate_limit_middleware client_ip (login name pass).

(** The requests the application routes, and what it answers them. *)
Inductive request : Type :=
| POST_api_register (user : UserCreate.t)
| POST_api_login (name pass : string)
| POST_api_chat (authorization : option jwt.token) (message : Message.t)
| GET_api_history (authorization : option jwt.token).

Inductive response : Type :=
| registered (message : string)
| logged_in (token : Token.t)
| replied (reply : ChatResponse.t)
| listed (history : list ChatHistory.t).

(** [app]: a request of the client at [client_ip] goes to its route. *)
Definition app (client_ip : string) (req : request) : M response :=
  match req with
  | POST_api_register user =>
      message ← post_api_register client_ip user; mret (registered message)
  | POST_api_login name pass =>
      token ← post_api_login client_ip name pass; mret (logged_in token)
  | POST_api_chat authorization message =>
      reply ← post_api_chat client_ip authorization message;
      mret (replied reply)
  | GET_api_history authorization =>
      history ← get_api_history client_ip authorization;
      mret (listed history)
  end.

(** Requests handled one after the other, each with the clocks it reads and
    the address it comes from. *)
Fixpoint serve (reqs : list (Env * string * request)) (w : World) : World :=
  match reqs with
  | [] => w
  | (env, client_ip, req) :: reqs => serve reqs (app client_ip req env w).2
  end.

(** The initial state of the process over a given store. *)
Definition boot (d : Database) : World :=
  {| db := d; rate_limiter := RateLimiting.rate_limiter |}.

(** An empty store that answers every call. *)
Definition empty_db : Database :=
  {| users := []; conversations := []; next_id := 0%N; faults := [];
     oplog := [] |}.

(** ** The launcher ([main.py]) *)

Module Launcher.

(** What the launcher does to its host, in order: lines printed, processes
    started with [subprocess.Popen], [os.chdir], [time.sleep],
    [webbrowser.open], and the loop of one-second sleeps that only Ctrl+C
    ends. *)
Inductive event : Type :=
| print (text : string)
| Popen (args : list string)
| chdir (path : string)
| sleep (seconds : Z)
| webbrowser_open (url : string)
| sleep_until_interrupted.

(** How [subprocess.run(["npm", "--version"], check=True, ...)] ends: it
    completes, it raises [SubprocessError] or [FileNotFoundError], or it
    raises another exception, given with its text. That run is seen through
    its outcome only. *)
Inductive npm_check : Type :=
| npm_found
| npm_not_found
| npm_check_raises (e : string).

(** What the launcher finds on its host. A field of type [option string]
    is [None] when the operation succeeds and the text of the exception it
    raises otherwise. *)
Record Host : Type := {
  executable : string;
  import_error : option string;
  backend_path_exists : bool;
  uvicorn_Popen_error : option string;
  frontend_dir_exists : bool;
  npm_version : npm_check;
  chdir_error : option string;
  npm_Popen_error : option string
}.

(** The parsed command line. *)
Record Args : Type := {
  backend_port : Z;
  frontend_port : Z;
  backend_only : bool;
  frontend_only : bool;
  no_browser : bool
}.

(** A value together with the events that led to it. *)
Definition W (A : Type) : Type := A * list event.

#[global] Instance W_ret : MRet W := λ A a, (a, []).

#[global] Instance W_bind : MBind W := λ A B f m,
  let (a, before) := m in
  let (b, after) := f a in
  (b, before ++ after).

Definition emit (e : event) : W unit := (tt, [e]).

(** [check_dependencies] *)
Definition check_dependencies (host : Host) : W bool :=
  match import_error host with
  | None =>
      emit (print "✅ All Python dependencies are installed.");;
      mret true
  | Some e =>
      emit (print ("❌ Missing dependency: " +:+ e));;
      emit (print "Run setup.sh to install all dependencies.");;
      mret false
  end.

(** [start_backend] *)
Definition start_backend (host : Host) (port : Z) : W bool :=
  emit (print ("🚀 Starting backend server on port " +:+ pretty port
               +:+ "..."));;
  let backend_path := "backend/app_fastapi.py" in
  if negb (backend_path_exists host) then
    emit (print ("❌ Backend file not found: " +:+ backend_path));;
    mret false
  else
    match uvicorn_Popen_error host with
    | Some e =>
        emit (print ("❌ Failed to start backend server: " +:+ e));;
        mret false
    | None =>
        emit (Popen [executable host; "-m"; "uvicorn";
                     "backend.app_fastapi:app"; "--host"; "0.0.0.0";
                     "--port"; pretty port; "--reload"]);;
        emit (print ("✅ Backend server started at http://localhost:"
                     +:+ pretty port));;
        mret true
    end.

(** [start_frontend] *)
Definition start_frontend (host : Host) (port : Z) : W bool :=
  emit (print ("🚀 Starting frontend server on port " +:+ pretty port
               +:+ "..."));;
  let frontend_dir := "frontend" in
  if negb (frontend_dir_exists host) then
    emit (print ("❌ Frontend directory not found: " +:+ frontend_dir));;
    mret false
  else
    match npm_version host with
    | npm_not_found =>
        emit (print "❌ npm is not installed. Please install Node.js and npm.");;
        mret false
    | npm_check_raises e =>
        emit (print ("❌ Failed to start frontend server: " +:+ e));;
        mret false
    | npm_found =>
        match chdir_error host with
        | Some e =>
            emit (print ("❌ Failed to start frontend server: " +:+ e));;
            mret false
        | None =>
            emit (chdir frontend_dir);;
            match npm_Popen_error host with
            | Some e =>
                emit (print ("❌ Failed to start frontend server: " +:+ e));;
                mret false
            | None =>
                emit (Popen ["npm"; "start"]);;
                emit (print ("✅ Frontend server started at http://localhost:"
                             +:+ pretty port));;
                mret true
            end
        end
    end.

(** [open_browser] *)
Definition open_browser (backend_port frontend_port : Z) : W unit :=
  emit (sleep 3);;
  let frontend_url := "http://localhost:" +:+ pretty frontend_port in
  emit (print ("📱 Opening frontend in browser: " +:+ frontend_url));;
  emit (webbrowser_open frontend_url);;
  let backend_url := "http://localhost:" +:+ pretty backend_port +:+ "/docs" in
  emit (print ("📘 API documentation available at: " +:+ backend_url));;
  emit (webbrowser_open backend_url).

(** [print("=" * 60)] *)
Definition rule : string := String.concat "" (replicate 60 "=").

(** The character a [\n] of the source stands for. *)
Definition newline : string := String (Ascii.ascii_of_nat 10) "".

(** [main], after [parser.parse_args()]. The early [return] when a
    dependency is missing is the [None] of the first step. *)
Definition main (args : Args) (host : Host) : W unit :=
  emit (print rule);;
  emit (print "🤖 AI Chatbot Application");;
  emit (print rule);;
  backend ←
    (if negb (frontend_only args) then
       installed ← check_dependencies host;
       if negb installed then mret None
       else
         backend_started ← start_backend host (backend_port args);
         mret (Some backend_started)
     else mret (Some true));
  match backend with
  | None => mret tt
  | Some backend_started =>
      frontend_started ←
        (if negb (backend_only args)
         then start_frontend host (frontend_port args)
         else mret true);
      (if backend_started && frontend_started && negb (no_browser args)
       then open_browser (backend_port args) (frontend_port args)
       else mret tt);;
      if backend_started || frontend_started then
        emit (print (newline +:+ "🎉 Application startup successful!"));;
        emit (print rule);;
        emit (print "Press Ctrl+C to stop the servers");;
        emit sleep_until_interrupted;;
        emit (print (newline +:+ "👋 Shutting down servers..."));;
        emit (print rule)
      else mret tt
  end.

(** The host lets every import of [check_dependencies] succeed. *)
Definition dependencies_installed (host : Host) : bool :=
  match import_error host with None => true | Some _ => false end.

(** The host lets [start_backend] reach the end of its [try]. *)
Definition backend_can_start (host : Host) : bool :=
  backend_path_exists host
  && match uvicorn_Popen_error host with None => true | Some _ => false end.

(** The host lets [start_frontend] reach the end of its [try]. *)
Definition frontend_can_start (host : Host) : bool :=
  frontend_dir_exists host
  && match npm_version host with npm_found => true | _ => false end
  && match chdir_error host with None => true | Some _ => false end
  && match npm_Popen_error host with None => true | Some _ => false end.


(** The two pages [open_browser] opens, in order. *)
Definition pages (args : Args) : list string :=
  ["http://localhost:" +:+ pretty (frontend_port args);
   "http://localhost:" +:+ pretty (backend_port args) +:+ "/docs"].

(** The command lines of the processes started. *)
Definition started (trace : list event) : list (list string) :=
  omap (λ e, match e with Popen args => Some args | _ => None end) trace.

(** Whether the launcher reached its loop of sleeps. *)
Definition stays_up (trace : list event) : bool :=
  existsb (λ e, match e with sleep_until_interrupted => true | _ => false end)
    trace.

(** The lines printed. *)
Definition printed (trace : list event) : list string :=
  omap (λ e, match e with print text => Some text | _ => None end) trace.

(** The pages opened in the browser. *)
Definition opened (trace : list event) : list string :=
  omap (λ e, match e with webbrowser_open url => Some url | _ => None end)
    trace.

End Launcher.

(** ** Sample data *)

(** A model that answers with the prompt as its only candidate. *)
Definition echo : Pipeline := λ prompt _ _ _, Return [prompt].

(** A model that raises on every prompt. *)
Definition broken : Pipeline := λ _ _ _ _, Raise (Exception "out of memory").

(** A host on which everything the launcher needs is in place. *)
Definition ready_host : Launcher.Host :=
  {| Launcher.executable := "/usr/bin/python3";
     Launcher.import_error := None;
     Launcher.backend_path_exists := true;
     Launcher.uvicorn_Popen_error := None;
     Launcher.frontend_dir_exists := true;
     Launcher.npm_version := Launcher.npm_found;
     Launcher.chdir_error := None;
     Launcher.npm_Popen_error := None |}.

(** A host with neither the Python packages nor the backend file. *)
Definition bare_host : Launcher.Host :=
  {| Launcher.executable := "/usr/bin/python3";
     Launcher.import_error := Some "No module named 'fastapi'"%string;
     Launcher.backend_path_exists := false;
     Launcher.uvicorn_Popen_error := None;
     Launcher.frontend_dir_exists := true;
     Launcher.npm_version := Launcher.npm_found;
     Launcher.chdir_error := None;
     Launcher.npm_Popen_error := None |}.

(** A host with the Python packages and without the backend file. *)
Definition no_backend_host : Launcher.Host :=
  {| Launcher.executable := "/usr/bin/python3";
     Launcher.import_error := None;
     Launcher.backend_path_exists := false;
     Launcher.uvicorn_Popen_error := None;
     Launcher.frontend_dir_exists := true;
     Launcher.npm_version := Launcher.npm_found;
     Launcher.chdir_error := None;
     Launcher.npm_Popen_error := None |}.

(** The command line with the default ports and the given flags. *)
Definition flags (backend_only frontend_only no_browser : bool)
    : Launcher.Args :=
  {| Launcher.backend_port := 8000; Launcher.frontend_port := 3000;
     Launcher.backend_only := backend_only;
     Launcher.frontend_only := frontend_only;
     Launcher.no_browser := no_browser |}.

(** A model that returns no candidate. *)
Definition mute : Pipeline := λ _ _ _ _, Return [].

(** The default secret, a loaded model, and clocks at instant 1000, the
    local wall clock reading 50. *)
Definition sample_env : Env :=
  {| SECRET_KEY := "your_secret_key"; model := Some echo;
     time_time := 1000; datetime_utcnow := 1000;
     utcnow_microsecond := 0; datetime_now := 50 |}.

Definition alice : User :=
  {| _id := 0%N; username := "alice"; email := "alice@x.com";
     password := "secret"; created_at := 10 |}.

(** A store with the one user [alice]. *)
Definition alice_store : Database :=
  {| users := [alice]; conversations := []; next_id := 1%N; faults := [];
     oplog := [] |}.

(** A turn of [alice] stamped with the instant 100. *)
Definition earlier_turn : Conversation :=
  {| doc_id := 1%N; user_id := 0%N; user_message := "earlier";
     bot_response := "earlier"; timestamp := 100 |}.

(** The store of [alice] holding [earlier_turn]. *)
Definition skewed_store : Database :=
  {| users := [alice]; conversations := [earlier_turn]; next_id := 2%N;
     faults := []; oplog := [] |}.

(** The clocks of [sample_env] with the local wall clock reading 200. *)
Definition later_env : Env :=
  {| SECRET_KEY := "your_secret_key"; model := Some echo;
     time_time := 1000; datetime_utcnow := 1000;
     utcnow_microsecond := 0; datetime_now := 200 |}.

(** [sample_env] with no model loaded, and with a model that raises. *)
Definition unloaded_env : Env :=
  {| SECRET_KEY := "your_secret_key"; model := None;
     time_time := 1000; datetime_utcnow := 1000;
     utcnow_microsecond := 0; datetime_now := 50 |}.

Definition broken_env : Env :=
  {| SECRET_KEY := "your_secret_key"; model := Some broken;
     time_time := 1000; datetime_utcnow := 1000;
     utcnow_microsecond := 0; datetime_now := 50 |}.

(** [sample_env] with the model [mute]. *)
Definition mute_env : Env :=
  {| SECRET_KEY := "your_secret_key"; model := Some mute;
     time_time := 1000; datetime_utcnow := 1000;
     utcnow_microsecond := 0; datetime_now := 50 |}.

Definition bob : User :=
  {| _id := 7%N; username := "bob"; email := "bob@x.com";
     password := "hunter2"; created_at := 20 |}.

(** [sample_env] with [datetime.utcnow()] half a second later, at
    1000.5. *)
Definition half_past_env : Env :=
  {| SECRET_KEY := "your_secret_key"; model := Some echo;
     time_time := 1000; datetime_utcnow := 1000;
     utcnow_microsecond := 500000; datetime_now := 50 |}.

(** [sample_env] with [datetime.utcnow()] at 2799.4 and at 2800.2. *)
Definition in_time_env : Env :=
  {| SECRET_KEY := "your_secret_key"; model := Some echo;
     time_time := 2799; datetime_utcnow := 2799;
     utcnow_microsecond := 400000; datetime_now := 1849 |}.

Definition last_moment_env : Env :=
  {| SECRET_KEY := "your_secret_key"; model := Some echo;
     time_time := 2800; datetime_utcnow := 2800;
     utcnow_microsecond := 200000; datetime_now := 1850 |}.


(** [sample_env] an hour later. *)
Definition hour_later_env : Env :=
  {| SECRET_KEY := "your_secret_key"; model := Some echo;
     time_time := 4600; datetime_utcnow := 4600;
     utcnow_microsecond := 0; datetime_now := 3650 |}.

(** The store of [alice], failing the next driver call. *)
Definition down_store : Database :=
  {| users := [alice]; conversations := []; next_id := 1%N;
     faults := [Some "connection refused"%string]; oplog := [] |}.

Definition hello : Message.t := {| Message.message := "hello" |}.

(** The registration of [alice]. *)
Definition alice_signup : UserCreate.t :=
  {| UserCreate.username := "alice"; UserCreate.email := "alice@x.com";
     UserCreate.password := "secret" |}.

(** The registration of [bob]. *)
Definition bob_signup : UserCreate.t :=
  {| UserCreate.username := "bob"; UserCreate.email := "bob@x.com";
     UserCreate.password := "hunter2" |}.

(** The registration of a second [alice]. *)
Definition alice_again : UserCreate.t :=
  {| UserCreate.username := "alice"; UserCreate.email := "other@x.com";
     UserCreate.password := "other" |}.

(** Sixty calls of one client at instant 0. *)
Definition burst : list (string * Z) := replicate 60 ("10.0.0.1"%string, 0).

(** The token [login] gives [alice] at instant 1000. *)
Definition alice_token : jwt.token :=
  jwt.encode {| jwt.sub := Some "alice"%string; jwt.exp := Some 2800 |}
    "your_secret_key" "HS256".

(** The driver calls made between the state [w] and the later state [w']. *)
Definition attempted (w w' : World) : list db_op :=
  drop (length (oplog (db w))) (oplog (db w')).

(** * Properties *)

(** ** The rate limiter *)

Section RateLimiterFacts.
Import RateLimiting.

Implicit Types (self : RateLimiter) (l : list Z) (calls : list (string * Z)).

Lemma elem_of_prune now l t :
  t ∈ prune now l ↔ t ∈ l ∧ now - t < 60.
Proof. unfold prune. rewrite list_elem_of_filter. tauto. Qed.

Lemma Forall_prune now l : Forall (λ t, now - t < 60) (prune now l).
Proof.
  apply Forall_forall. intros t Ht. by apply elem_of_prune in Ht as [_ ?].
Qed.

Lemma prune_app now l1 l2 :
  prune now (l1 ++ l2) = prune now l1 ++ prune now l2.
Proof. apply filter_app. Qed.

Lemma length_prune now l : (length (prune now l) ≤ length l)%nat.
Proof. apply length_filter. Qed.

(** A pruning that drops nothing means everything was recent. *)
Lemma prune_full now l :
  (length l ≤ length (prune now l))%nat → prune now l = l.
Proof.
  unfold prune. induction l as [|t l IH]; [done|].
  rewrite filter_cons. destruct (decide (now - t < 60)); simpl; intros Hlen.
  - f_equal. apply IH. lia.
  - pose proof (length_filter (λ t, now - t < 60) l). lia.
Qed.

(** Pruning at an earlier instant loses nothing that is recent later. *)
Lemma prune_prune now t l : t ≤ now → prune now (prune t l) = prune now l.
Proof.
  intros Hle. unfold prune. induction l as [|x l IH]; [done|].
  rewrite !filter_cons.
  destruct (decide (t - x < 60)), (decide (now - x < 60));
    rewrite ?filter_cons; try destruct (decide _); try lia;
    by rewrite IH.
Qed.

Lemma check_requests_per_minute c t self :
  requests_per_minute (check c t self).2 = requests_per_minute self.
Proof.
  unfold check. destruct (requests self !! c); [|done].
  simpl. by destruct (_ >=? _).
Qed.

Lemma run_requests_per_minute calls self :
  requests_per_minute (run calls self) = requests_per_minute self.
Proof.
  revert self. induction calls as [|[c t] calls IH]; intros self; [done|].
  simpl. by rewrite IH, check_requests_per_minute.
Qed.

(** [check], told by the instants retained for the client. *)
Lemma check_unfold c now self :
  1 ≤ requests_per_minute self →
  check c now self =
    if Z.of_nat (length (prune now (retained c self)))
         >=? requests_per_minute self
    then (false, self)
    else (true,
          {| requests_per_minute := requests_per_minute self;
             requests := <[c := prune now (retained c self) ++ [now]]>
                           (requests self) |}).
Proof.
  intros Hlim. unfold check, retained.
  destruct (requests self !! c) as [l|]; simpl; [done|].
  destruct (Z.of_nat 0 >=? requests_per_minute self) eqn:E; [|done].
  apply Z.geb_le in E. lia.
Qed.

Lemma check_retained_other c c' t self :
  c ≠ c' → retained c' (check c t self).2 = retained c' self.
Proof.
  intros Hne. unfold check, retained.
  destruct (requests self !! c) as [l|]; simpl.
  - destruct (_ >=? _); simpl; [done|]. by rewrite lookup_insert_ne.
  - by rewrite lookup_insert_ne.
Qed.

(** The admitted calls that are recent at [now] are all still retained,
    when no call of the client came later than [now]. *)
Lemma admitted_retained client_ip now calls self :
  Forall (λ ct, ct.1 = client_ip → ct.2 ≤ now) calls →
  (length (prune now (admitted client_ip calls self))
     + length (prune now (retained client_ip self))
   ≤ length (prune now (retained client_ip (run calls self))))%nat.
Proof.
  revert self. induction calls as [|[c t] calls IH]; intros self Hcalls.
  { simpl. lia. }
  apply Forall_cons in Hcalls as [Hct Hcalls]. simpl in Hct.
  specialize (IH (check c t self).2 Hcalls).
  cbn [admitted run]. unfold prune at 1. rewrite filter_app.
  rewrite length_app. fold (prune now (admitted client_ip calls (check c t self).2)).
  enough (length (filter (λ t0, (now - t0 < 60)%Z)
            (if (check c t self).1 && bool_decide (c = client_ip)
             then [t] else []))
          + length (prune now (retained client_ip self))
          ≤ length (prune now (retained client_ip (check c t self).2)))%nat
    by lia.
  clear IH Hcalls. destruct (decide (c = client_ip)) as [->|Hne].
  - specialize (Hct eq_refl). rewrite bool_decide_eq_true_2 by done.
    rewrite andb_true_r. unfold check, retained.
    destruct (requests self !! client_ip) as [l|] eqn:Hl; simpl.
    + destruct (_ >=? _); simpl; [rewrite Hl; simpl; lia|].
      rewrite lookup_insert_eq. simpl. fold (prune t l).
      rewrite prune_app, length_app, prune_prune by done.
      unfold prune. lia.
    + rewrite lookup_insert_eq. simpl. unfold prune. lia.
  - rewrite bool_decide_eq_false_2 by done. rewrite andb_false_r.
    rewrite check_retained_other by done. simpl. lia.
Qed.

Lemma bounded_init limit : 0 ≤ limit → bounded (init limit).
Proof. intros ? c l. unfold init. simpl. by rewrite lookup_empty. Qed.

Lemma bounded_check c t self :
  1 ≤ requests_per_minute self → bounded self → bounded (check c t self).2.
Proof.
  intros Hlim Hb. unfold check.
  destruct (requests self !! c) as [l|] eqn:Hc; simpl.
  - destruct (_ >=? _) eqn:E; simpl; [done|].
    intros c' l'. simpl. rewrite lookup_insert.
    case_decide; [|by apply Hb].
    intros [= <-]. rewrite length_app. simpl.
    rewrite Z.geb_leb in E. apply Z.leb_gt in E. lia.
  - intros c' l'. simpl. rewrite lookup_insert.
    case_decide; [|by apply Hb]. intros [= <-]. simpl. lia.
Qed.

Lemma bounded_run calls self :
  1 ≤ requests_per_minute self → bounded self → bounded (run calls self).
Proof.
  revert self. induction calls as [|[c t] calls IH]; intros self ??; [done|].
  simpl. apply IH; [by rewrite check_requests_per_minute|].
  by apply bounded_check.
Qed.

(** Every retained instant is the instant of an earlier call. *)
Lemma retained_run client_ip calls self t :
  t ∈ retained client_ip (run calls self) →
  t ∈ retained client_ip self ∨ (client_ip, t) ∈ calls.
Proof.
  revert self. induction calls as [|[c t'] calls IH]; intros self Ht.
  { by left. }
  simpl in Ht. apply IH in Ht as [Ht|Ht]; [|right; by right].
  destruct (decide (c = client_ip)) as [->|Hne].
  - revert Ht. unfold check, retained.
    destruct (requests self !! client_ip) as [l|] eqn:Hl; simpl.
    + destruct (_ >=? _); simpl; [rewrite Hl; by left|].
      rewrite lookup_insert_eq. simpl. rewrite elem_of_app, elem_of_prune.
      intros [[? _]|Ht]; [by left|]. apply list_elem_of_singleton in Ht as ->.
      right. by left.
    + rewrite lookup_insert_eq. simpl. intros Ht.
      apply list_elem_of_singleton in Ht as ->. right. by left.
  - rewrite check_retained_other in Ht by done. by left.
Qed.

End RateLimiterFacts.

(** C1. For every client and every instant [now], [check] keeps of the
    retained instants exactly those less than 60 seconds old; when at least
    [requests_per_minute] (60 for the service's limiter) remain it answers
    false and leaves the limiter as it was, and otherwise it stores the kept
    instants followed by [now] and answers true. Hence, once as many calls of
    the client as the limit were admitted at instants less than 60 seconds
    before [now], none of its calls being later than [now], the call at
    [now] is denied and records nothing. *)
Theorem check_sliding_window (client_ip : string) (now : Z)
    (self : RateLimiting.RateLimiter) :
  1 ≤ RateLimiting.requests_per_minute self →
  let kept := RateLimiting.prune now (RateLimiting.retained client_ip self) in
  (∀ t, t ∈ kept ↔ t ∈ RateLimiting.retained client_ip self ∧ now - t < 60)
  ∧ (RateLimiting.requests_per_minute self ≤ Z.of_nat (length kept) →
     RateLimiting.check client_ip now self = (false, self))
  ∧ (Z.of_nat (length kept) < RateLimiting.requests_per_minute self →
     RateLimiting.check client_ip now self =
       (true,
        {| RateLimiting.requests_per_minute :=
             RateLimiting.requests_per_minute self;
           RateLimiting.requests :=
             <[client_ip := kept ++ [now]]> (RateLimiting.requests self) |}))
  ∧ (∀ calls : list (string * Z),
       Forall (λ ct, ct.1 = client_ip → ct.2 ≤ now) calls →
       RateLimiting.requests_per_minute self
         ≤ Z.of_nat (length (RateLimiting.prune now
                               (RateLimiting.admitted client_ip calls self))) →
       RateLimiting.check client_ip now (RateLimiting.run calls self)
         = (false, RateLimiting.run calls self)).
Proof.
  intros Hlim kept. split; [intros t; apply elem_of_prune|].
  split; [|split].
  - intros Hfull. rewrite check_unfold by done. fold kept.
    destruct (_ >=? _) eqn:E; [done|].
    rewrite Z.geb_leb in E. apply Z.leb_gt in E. lia.
  - intros Hroom. rewrite check_unfold by done. fold kept.
    destruct (_ >=? _) eqn:E; [|done]. apply Z.geb_le in E. lia.
  - intros calls Hcalls Hadm.
    pose proof (admitted_retained client_ip now calls self Hcalls) as Hkeep.
    rewrite check_unfold by (by rewrite run_requests_per_minute).
    rewrite run_requests_per_minute.
    destruct (_ >=? _) eqn:E; [done|].
    rewrite Z.geb_leb in E. apply Z.leb_gt in E. lia.
Qed.

(** C1 at the service's limiter: sixty calls at instant 0 are admitted, the
    call at instant 59 is denied and changes nothing, the call at instant 60
    is admitted again. *)
Lemma check_sliding_window_witness :
  1 ≤ RateLimiting.requests_per_minute RateLimiting.rate_limiter
  ∧ RateLimiting.check "10.0.0.1" 59
      (RateLimiting.run burst RateLimiting.rate_limiter)
    = (false, RateLimiting.run burst RateLimiting.rate_limiter)
  ∧ (RateLimiting.check "10.0.0.1" 60
       (RateLimiting.run burst RateLimiting.rate_limiter)).1 = true.
Proof.
  split; [vm_compute; discriminate|]. split.
  - destruct (check_sliding_window "10.0.0.1" 59 RateLimiting.rate_limiter)
      as (_ & _ & _ & Hdeny); [vm_compute; discriminate|].
    apply Hdeny.
    + apply Forall_replicate. simpl. intros _. vm_compute. discriminate.
    + vm_compute. discriminate.
  - destruct (check_sliding_window "10.0.0.1" 60
                (RateLimiting.run burst RateLimiting.rate_limiter))
      as (_ & _ & Hadmit & _); [vm_compute; discriminate|].
    rewrite Hadmit; [reflexivity|]. vm_compute. reflexivity.
Defined.

(** C5. After every call of [check] on a limiter that started empty with a
    limit of at least one (60 for the service), admitted or denied, the list
    stored for the calling client holds only instants less than 60 seconds
    before the instant of the call, none later than it when no earlier call
    was, and is no longer than the limit. *)
Theorem check_window_invariant (limit : Z) (calls : list (string * Z))
    (client_ip : string) (now : Z) :
  1 ≤ limit →
  ∃ l : list Z,
    RateLimiting.requests
      (RateLimiting.check client_ip now
         (RateLimiting.run calls (RateLimiting.init limit))).2 !! client_ip
      = Some l
    ∧ Forall (λ t, now - t < 60) l
    ∧ Z.of_nat (length l) ≤ limit
    ∧ (Forall (λ ct, ct.2 ≤ now) calls → Forall (λ t, t ≤ now) l).
Proof.
  intros Hlim. set (self := RateLimiting.run calls (RateLimiting.init limit)).
  assert (RateLimiting.requests_per_minute self = limit) as Hself
    by (unfold self; by rewrite run_requests_per_minute).
  assert (RateLimiting.bounded self) as Hb.
  { apply bounded_run; [done|]. apply bounded_init. lia. }
  assert (∀ t, t ∈ RateLimiting.retained client_ip self →
               Forall (λ ct, ct.2 ≤ now) calls → t ≤ now) as Hpast.
  { intros t Ht Hcalls. apply retained_run in Ht as [Ht|Ht].
    - unfold RateLimiting.retained, RateLimiting.init in Ht. simpl in Ht.
      rewrite lookup_empty in Ht. by apply elem_of_nil in Ht.
    - rewrite Forall_forall in Hcalls. by apply (Hcalls _ Ht). }
  rewrite check_unfold by lia. rewrite Hself.
  destruct (_ >=? _) eqn:E; simpl.
  - apply Z.geb_le in E. unfold RateLimiting.retained in E, Hpast.
    destruct (RateLimiting.requests self !! client_ip) as [l|] eqn:Hl;
      simpl in E; [|lia].
    exists l. split; [done|]. specialize (Hb _ _ Hl). rewrite Hself in Hb.
    assert (RateLimiting.prune now l = l) as Hall by (apply prune_full; lia).
    split; [rewrite <- Hall; apply Forall_prune|]. split; [done|].
    intros Hcalls. apply Forall_forall. intros t Ht. by apply Hpast.
  - rewrite Z.geb_leb in E. apply Z.leb_gt in E.
    eexists. split; [apply lookup_insert_eq|]. split; [|split].
    + apply Forall_app. split; [apply Forall_prune|].
      apply Forall_singleton. lia.
    + rewrite length_app. simpl. lia.
    + intros Hcalls. apply Forall_app. split; [|apply Forall_singleton; lia].
      apply Forall_forall. intros t Ht. apply elem_of_prune in Ht as [Ht _].
      by apply Hpast.
Qed.

(** C5 at the service's limit: after sixty admitted calls at instant 0, a
    denied call at instant 59 leaves sixty recent instants stored. *)
Lemma check_window_invariant_witness :
  1 ≤ 60
  ∧ ∃ l : list Z,
      RateLimiting.requests
        (RateLimiting.check "10.0.0.1" 59
           (RateLimiting.run burst (RateLimiting.init 60))).2
        !! "10.0.0.1"%string
        = Some l
      ∧ Forall (λ t, 59 - t < 60) l
      ∧ Z.of_nat (length l) ≤ 60
      ∧ (Forall (λ ct : string * Z, ct.2 ≤ 59) burst →
         Forall (λ t, t ≤ 59) l).
Proof.
  split; [vm_compute; discriminate|].
  apply (check_window_invariant 60 burst "10.0.0.1" 59).
  vm_compute. discriminate.
Defined.

(** ** The store *)

Section StoreFacts.

Lemma driver_answers {A : Type} (op : db_op)
    (answer : Database → A * Database) (env : Env) (w : World) :
  next_fault (db w) = None →
  driver op answer env w =
    (Return (answer (called op (db w))).1,
     with_db w (answer (called op (db w))).2).
Proof. intros Hup. unfold driver. rewrite Hup. by destruct (answer _). Qed.

Lemma driver_faults {A : Type} (op : db_op)
    (answer : Database → A * Database) (env : Env) (w : World) msg :
  next_fault (db w) = Some msg →
  driver op answer env w =
    (Raise (Exception msg), with_db w (called op (db w))).
Proof. intros Hdown. unfold driver. by rewrite Hdown. Qed.

(** A driver call never removes or alters a document when it raises. *)
Lemma driver_raises {A : Type} (op : db_op)
    (answer : Database → A * Database) (env : Env) (w : World) e :
  (driver op answer env w).1 = Raise e →
  users (db (driver op answer env w).2) = users (db w)
  ∧ conversations (db (driver op answer env w).2) = conversations (db w).
Proof.
  unfold driver. destruct (next_fault (db w)); simpl; [done|].
  by destruct (answer _).
Qed.

(** [find_one] finds a user exactly when one has the name. *)
Lemma find_username_Some (name : string) (l : list User) (u : User) :
  u ∈ l → username u = name →
  ∃ u', List.find (λ u, String.eqb (username u) name) l = Some u'
        ∧ u' ∈ l ∧ username u' = name.
Proof.
  intros Hin Hname.
  destruct (List.find _ l) as [u'|] eqn:Hfind.
  - apply find_some in Hfind as [Hin' Heq].
    apply String.eqb_eq in Heq. exists u'. by rewrite list_elem_of_In.
  - apply list_elem_of_In in Hin.
    apply (find_none _ _ Hfind) in Hin. simpl in Hin.
    apply String.eqb_neq in Hin. done.
Qed.

Lemma find_username_None (name : string) (l : list User) :
  (∀ u, u ∈ l → username u ≠ name) →
  List.find (λ u, String.eqb (username u) name) l = None.
Proof.
  intros Hnone. destruct (List.find _ l) as [u'|] eqn:Hfind; [|done].
  apply find_some in Hfind as [Hin Heq]. apply String.eqb_eq in Heq.
  apply list_elem_of_In in Hin. by destruct (Hnone u' Hin).
Qed.

End StoreFacts.

(** C6. When the store answers and holds a user with the requested
    username, [register] raises the 400 error "Username already registered";
    it only looked the name up, and both collections are as they were. *)
Theorem register_duplicate_username (user : UserCreate.t) (env : Env)
    (w : World) (existing : User) :
  next_fault (db w) = None →
  existing ∈ users (db w) →
  username existing = UserCreate.username user →
  (register user env w).1
    = Raise (HTTPException 400 "Username already registered" None)
  ∧ users (db (register user env w).2) = users (db w)
  ∧ conversations (db (register user env w).2) = conversations (db w)
  ∧ next_id (db (register user env w).2) = next_id (db w)
  ∧ oplog (db (register user env w).2)
      = oplog (db w) ++ [users_find_one (UserCreate.username user)].
Proof.
  intros Hup Hin Hname.
  destruct (find_username_Some _ _ _ Hin Hname) as (u' & Hfind & _ & _).
  unfold register, db_users_find_one, mbind, M_bind.
  rewrite driver_answers by done. simpl. rewrite Hfind. done.
Qed.

(** C6 on the store of [alice]: a second registration of the name is
    refused and the store keeps its one user. *)
Lemma register_duplicate_username_witness :
  next_fault (db (boot alice_store)) = None
  ∧ alice ∈ users (db (boot alice_store))
  ∧ username alice = UserCreate.username alice_again
  ∧ (register alice_again sample_env (boot alice_store)).1
      = Raise (HTTPException 400 "Username already registered" None)
  ∧ users (db (register alice_again sample_env (boot alice_store)).2)
      = [alice].
Proof.
  assert (alice ∈ users (db (boot alice_store))) as Hin by (simpl; left).
  destruct (register_duplicate_username alice_again sample_env
              (boot alice_store) alice)
    as (Hraise & Husers & _); [reflexivity|exact Hin|reflexivity|].
  split; [reflexivity|]. split; [exact Hin|]. split; [reflexivity|].
  split; [exact Hraise|exact Husers].
Defined.

(** C7. On one store, [login] with the name of a user and another password
    than the stored one, and [login] with a name no user has, give the same
    result; when the store answers it is the 401 error "Incorrect username
    or password", and no token. *)
Theorem login_failures_identical (name1 pass1 name2 pass2 : string)
    (env : Env) (w : World) (u1 : User) :
  u1 ∈ users (db w) → username u1 = name1 →
  (∀ u, u ∈ users (db w) → username u = name1 → password u ≠ pass1) →
  (∀ u, u ∈ users (db w) → username u ≠ name2) →
  (login name1 pass1 env w).1 = (login name2 pass2 env w).1
  ∧ (next_fault (db w) = None →
     (login name1 pass1 env w).1
       = Raise (HTTPException 401 "Incorrect username or password" None)).
Proof.
  intros Hin Hname Hwrong Hnone.
  destruct (find_username_Some _ _ _ Hin Hname) as (u' & Hfind & Hin' & Hn').
  pose proof (find_username_None _ _ Hnone) as Hfind2.
  assert (bad_credentials (Some u') pass1 = true) as Hbad.
  { simpl. apply negb_true_iff, String.eqb_neq. by apply Hwrong. }
  unfold login, db_users_find_one, mbind, M_bind.
  destruct (next_fault (db w)) as [msg|] eqn:Hf.
  - rewrite !driver_faults with (msg := msg) by done. done.
  - rewrite !driver_answers by done. simpl.
    rewrite Hfind, Hfind2, Hbad. done.
Qed.

(** C7 on the store of [alice]: her name with a wrong password and the
    unknown name [bob] get the same 401 error. *)
Lemma login_failures_identical_witness :
  (login "alice" "guess" sample_env (boot alice_store)).1
    = (login "bob" "secret" sample_env (boot alice_store)).1
  ∧ (login "alice" "guess" sample_env (boot alice_store)).1
      = Raise (HTTPException 401 "Incorrect username or password" None).
Proof.
  destruct (login_failures_identical "alice" "guess" "bob" "secret"
              sample_env (boot alice_store) alice)
    as [Hsame Herr].
  - simpl. left.
  - reflexivity.
  - simpl. intros u Hu _. apply list_elem_of_singleton in Hu.
    rewrite Hu. simpl. discriminate.
  - simpl. intros u Hu. apply list_elem_of_singleton in Hu.
    rewrite Hu. simpl. discriminate.
  - split; [exact Hsame|]. apply Herr. reflexivity.
Defined.

(** ** Tokens *)

Section TokenFacts.

(** [jwt.decode] accepts exactly the tokens made with an allowed algorithm
    and the verifying key whose expiry, when they state one, is still
    ahead. *)
Lemma decode_Return (t : jwt.token) (key : string) (now : Z)
    (p : jwt.Payload) :
  jwt.decode t key [ALGORITHM] now = Return p ↔
  t = jwt.encode p key ALGORITHM
  ∧ ∀ e, jwt.exp p = Some e → now < e.
Proof.
  unfold jwt.encode.
  destruct t as [s|alg payload k]; simpl; [by split; [|intros [? _]]|].
  destruct (bool_decide (alg ∈ [ALGORITHM])) eqn:Halg; simpl.
  - apply bool_decide_eq_true in Halg.
    apply list_elem_of_singleton in Halg as ->.
    destruct (String.eqb k (hmac.block_key key)) eqn:Hk; simpl.
    + apply String.eqb_eq in Hk as ->.
      destruct (jwt.exp payload) as [e|] eqn:He.
      * destruct (e <=? now) eqn:Hle.
        -- apply Z.leb_le in Hle. split; [done|].
           intros [[= <-] Hlt]. specialize (Hlt _ He). lia.
        -- apply Z.leb_gt in Hle. split.
           ++ intros [= <-]. split; [done|]. intros e'. rewrite He.
              by intros [= <-].
           ++ by intros [[= <-] _].
      * split; [intros [= <-]; split; [done|]; by rewrite He|].
        by intros [[= <-] _].
    + apply String.eqb_neq in Hk. split; [done|]. by intros [[= <- ?] _].
  - apply bool_decide_eq_false in Halg. split; [done|].
    intros [[= -> ? ?] _]. destruct Halg. by left.
Qed.

Lemma decode_expired (p : jwt.Payload) (key : string) (now e : Z) :
  jwt.exp p = Some e → e ≤ now →
  jwt.decode (jwt.encode p key ALGORITHM) key [ALGORITHM] now
    = Raise (PyJWTError ExpiredSignatureError).
Proof.
  intros He Hle. simpl. rewrite String.eqb_refl, He. simpl.
  apply Z.leb_le in Hle. by rewrite Hle.
Qed.


(** [hashlib.sha256] on the test vectors of FIPS 180-4 and on a message of
    two blocks. *)
Example sha256_abc :
  hashlib.hex (hashlib.sha256 "abc")
  = "ba7816bf8f01cfea414140de5dae2223b00361a396177a9cb410ff61f20015ad"%string.
Proof. vm_compute. reflexivity. Qed.

Example sha256_empty :
  hashlib.hex (hashlib.sha256 "")
  = "e3b0c44298fc1c149afbf4c8996fb92427ae41e4649b934ca495991b7852b855"%string.
Proof. vm_compute. reflexivity. Qed.

Example sha256_two_blocks :
  hashlib.hex
    (hashlib.sha256
       "abcdbcdecdefdefgefghfghighijhijkijkljklmklmnlmnomnopnopq")
  = "248d6a61d20638b8e5c026930c3e6039a33ce45964ff2167f6ecedd419db06c1"%string.
Proof. vm_compute. reflexivity. Qed.

(** Among keys of one length of at most 64 bytes, the block key tells the
    keys apart. *)
Lemma append_same_length (a a' b b' : string) :
  String.length a = String.length a' → a +:+ b = a' +:+ b' → a = a'.
Proof.
  revert a'. induction a as [|c a IH]; intros [|c' a']; simpl; try done.
  intros [= Hlen] [= -> Happ]. f_equal. by apply IH.
Qed.

Lemma block_key_same_length (key key' : string) :
  String.length key = String.length key' →
  (String.length key ≤ 64)%nat →
  hmac.block_key key = hmac.block_key key' → key = key'.
Proof.
  intros Hlen Hshort. unfold hmac.block_key, hmac.ljust. rewrite <- Hlen.
  destruct (64 <? String.length key)%nat eqn:E.
  { apply Nat.ltb_lt in E. lia. }
  by apply append_same_length.
Qed.

(** A key longer than 64 bytes and its digest have the same block key. *)
Example block_key_of_long_key :
  hmac.block_key
    "0123456789012345678901234567890123456789012345678901234567890123456789"
  = hmac.block_key
      (hashlib.sha256
         "0123456789012345678901234567890123456789012345678901234567890123456789").
Proof. vm_compute. reflexivity. Qed.

(** Keys with the same block key make the same tokens. *)
Lemma encode_block_key (p : jwt.Payload) (alg key key' : string) :
  hmac.block_key key' = hmac.block_key key →
  jwt.encode p key' alg = jwt.encode p key alg.
Proof. unfold jwt.encode. by intros ->. Qed.

(** [get_current_user], told by what [jwt.decode] gives. *)
Lemma get_current_user_decoded (t : jwt.token) (env : Env) (w : World)
    (p : jwt.Payload) (name : string) :
  jwt.decode t (SECRET_KEY env) [ALGORITHM] (datetime_utcnow env)
    = Return p →
  jwt.sub p = Some name →
  get_current_user t env w =
    match db_users_find_one name env w with
    | (Return (Some user), w') => (Return user, w')
    | (Return None, w') => (Raise credentials_exception, w')
    | (Raise e, w') => (Raise e, w')
    end.
Proof.
  intros Hdec Hsub.
  unfold get_current_user, try_except, mbind, M_bind, ask, lift. simpl.
  rewrite Hdec, Hsub. simpl.
  destruct (db_users_find_one name env w) as [[[u|]|e] w']; done.
Qed.

Lemma get_current_user_no_subject (t : jwt.token) (env : Env) (w : World)
    (p : jwt.Payload) :
  jwt.decode t (SECRET_KEY env) [ALGORITHM] (datetime_utcnow env)
    = Return p →
  jwt.sub p = None →
  get_current_user t env w = (Raise credentials_exception, w).
Proof.
  intros Hdec Hsub.
  unfold get_current_user, try_except, mbind, M_bind, ask, lift. simpl.
  by rewrite Hdec, Hsub.
Qed.

Lemma get_current_user_jwt_error (t : jwt.token) (env : Env) (w : World)
    (e : jwt_error) :
  jwt.decode t (SECRET_KEY env) [ALGORITHM] (datetime_utcnow env)
    = Raise (PyJWTError e) →
  get_current_user t env w = (Raise credentials_exception, w).
Proof.
  intros Hdec.
  unfold get_current_user, try_except, mbind, M_bind, ask, lift. simpl.
  by rewrite Hdec.
Qed.

(** [jwt.decode] raises nothing but [jwt.PyJWTError]. *)
Lemma decode_raises (t : jwt.token) (key : string) (now : Z) (e : exn) :
  jwt.decode t key [ALGORITHM] now = Raise e → ∃ j, e = PyJWTError j.
Proof.
  destruct t as [s|alg p k]; simpl; [intros [= <-]; eauto|].
  destruct (bool_decide _); simpl; [|intros [= <-]; eauto].
  destruct (String.eqb k (hmac.block_key key)); simpl; [|intros [= <-]; eauto].
  destruct (jwt.exp p) as [x|]; [|done].
  destruct (x <=? now); [intros [= <-]; eauto|done].
Qed.

(** [login] either raises or returns the token of the caller. *)
Lemma login_Return (name pass : string) (env : Env) (w w' : World)
    (tok : Token.t) :
  login name pass env w = (Return tok, w') →
  tok = {| Token.access_token :=
             jwt.encode
               {| jwt.sub := Some name;
                  jwt.exp := Some (datetime_utcnow env + 30 * 60) |}
               (SECRET_KEY env) ALGORITHM;
           Token.token_type := "bearer" |}
  ∧ ∃ user, user ∈ users (db w) ∧ username user = name
            ∧ password user = pass.
Proof.
  unfold login, mbind, M_bind, db_users_find_one, driver.
  destruct (next_fault (db w)); [done|]. simpl.
  destruct (List.find _ _) as [u|] eqn:Hfind; simpl; [|done].
  destruct (String.eqb (password u) pass) eqn:Hpw; simpl; [|done].
  intros [= <- <-]. split; [done|].
  apply find_some in Hfind as [Hin Hname].
  apply String.eqb_eq in Hname, Hpw. apply list_elem_of_In in Hin.
  by exists u.
Qed.

End TokenFacts.

(** C2 as the code has it. The token [login] returns for [name] when
    [datetime.utcnow()] reads the instant [t] states the subject [name] and,
    as its expiry, the whole second of [t] + 30 minutes: the microsecond of
    [t] is dropped. It is signed with the service secret. [jwt.decode]
    returns that payload at every instant whose whole second is before the
    expiry, and raises [ExpiredSignatureError] at every instant whose whole
    second is the expiry or later. So at every instant at least one second
    before [t] + 30 minutes [get_current_user] goes on to look [name] up,
    and at every instant at or after [t] + 30 minutes it raises the 401
    error without consulting the store. In general a token that states an
    expiry decodes if and only if it was made under the allowed algorithm
    with a key that HMAC takes for the service secret and the whole second
    of the instant is before the expiry. *)
Theorem login_token_lifetime (name pass : string) (env : Env) (w w' : World)
    (tok : Token.t) :
  login name pass env w = (Return tok, w') →
  let expires_at := datetime_utcnow env + 30 * 60 in
  let payload := {| jwt.sub := Some name; jwt.exp := Some expires_at |} in
  Token.access_token tok = jwt.encode payload (SECRET_KEY env) ALGORITHM
  ∧ expires_at = jwt.numeric_date (datetime_add (utcnow env) (30 * 60))
  ∧ (∀ now : Z,
       (now < expires_at →
        jwt.decode (Token.access_token tok) (SECRET_KEY env) [ALGORITHM] now
          = Return payload)
       ∧ (expires_at ≤ now →
          jwt.decode (Token.access_token tok) (SECRET_KEY env) [ALGORITHM] now
            = Raise (PyJWTError ExpiredSignatureError)))
  ∧ (∀ (env' : Env) (w0 : World),
       SECRET_KEY env' = SECRET_KEY env →
       (datetime_le (datetime_add (utcnow env') 1)
          (datetime_add (utcnow env) (30 * 60)) →
        get_current_user (Token.access_token tok) env' w0 =
          match db_users_find_one name env' w0 with
          | (Return (Some user), w1) => (Return user, w1)
          | (Return None, w1) => (Raise credentials_exception, w1)
          | (Raise e, w1) => (Raise e, w1)
          end)
       ∧ (datetime_le (datetime_add (utcnow env) (30 * 60)) (utcnow env') →
          get_current_user (Token.access_token tok) env' w0
            = (Raise credentials_exception, w0)))
  ∧ (∀ (alg key : string) (p : jwt.Payload) (e now : Z),
       jwt.exp p = Some e →
       (∃ p', jwt.decode (jwt.encode p key alg) (SECRET_KEY env)
                [ALGORITHM] now = Return p')
       ↔ (alg = ALGORITHM
          ∧ hmac.block_key key = hmac.block_key (SECRET_KEY env))
         ∧ now < e).
Proof.
  intros Hlogin expires_at payload.
  apply login_Return in Hlogin as [-> _]. cbn [Token.access_token].
  change (jwt.encode _ (SECRET_KEY env) ALGORITHM)
    with (jwt.encode payload (SECRET_KEY env) ALGORITHM).
  assert (∀ now, now < expires_at →
            jwt.decode (jwt.encode payload (SECRET_KEY env) ALGORITHM)
              (SECRET_KEY env) [ALGORITHM] now = Return payload) as Hvalid.
  { intros now Hnow. apply decode_Return. split; [done|].
    intros e [= <-]. done. }
  assert (∀ now, expires_at ≤ now →
            jwt.decode (jwt.encode payload (SECRET_KEY env) ALGORITHM)
              (SECRET_KEY env) [ALGORITHM] now
            = Raise (PyJWTError ExpiredSignatureError)) as Hexpired.
  { intros now Hnow. by apply decode_expired with (e := expires_at). }
  split; [done|]. split; [done|]. split; [by intros now; split; auto|]. split.
  - intros env' w0 Hkey. unfold datetime_le, datetime_add, utcnow. simpl.
    split; intros Hnow.
    + apply get_current_user_decoded with (p := payload); [|done].
      rewrite Hkey. apply Hvalid. unfold expires_at. lia.
    + apply get_current_user_jwt_error with (e := ExpiredSignatureError).
      rewrite Hkey. apply Hexpired. unfold expires_at. lia.
  - intros alg key p e now He. split.
    + intros [p' Hdec]. apply decode_Return in Hdec as [Htok Hlt].
      unfold jwt.encode in Htok. injection Htok as -> -> Hk.
      split; [done|]. by apply Hlt.
    + intros [[-> Hk] Hlt]. exists p. apply decode_Return. split.
      * by apply encode_block_key.
      * intros e'. rewrite He. by intros [= <-].
Qed.

(** C2 for [alice] logging in at the instant 1000.5: the token states the
    expiry 2800; at 2799.4 she is authenticated, at the whole second 2800
    the token is expired. *)
Lemma login_token_lifetime_witness :
  login "alice" "secret" half_past_env (boot alice_store)
    = (Return {| Token.access_token := alice_token;
                 Token.token_type := "bearer" |},
       (login "alice" "secret" half_past_env (boot alice_store)).2)
  ∧ (get_current_user alice_token in_time_env (boot alice_store)).1
      = Return alice
  ∧ jwt.decode alice_token "your_secret_key" [ALGORITHM] 2800
      = Raise (PyJWTError ExpiredSignatureError).
Proof.
  assert (login "alice" "secret" half_past_env (boot alice_store)
          = (Return {| Token.access_token := alice_token;
                       Token.token_type := "bearer" |},
             (login "alice" "secret" half_past_env (boot alice_store)).2))
    as Hlogin by reflexivity.
  destruct (login_token_lifetime _ _ _ _ _ _ Hlogin)
    as (_ & _ & Hdecode & Hauth & _).
  split; [exact Hlogin|]. split.
  - destruct (Hauth in_time_env (boot alice_store) eq_refl) as [Hok _].
    cbn [Token.access_token] in Hok. rewrite Hok; [reflexivity|].
    right. split; vm_compute; [reflexivity|discriminate].
  - apply (Hdecode 2800). vm_compute. discriminate.
Defined.

(** The claim of C2 fails as stated: [alice] logs in at the instant 1000.5,
    so that 30 minutes later is 2800.5; at the earlier instant 2800.2 her
    token is already refused as expired. *)
Lemma login_token_refused_early :
  datetime_lt (utcnow last_moment_env)
    (datetime_add (utcnow half_past_env) (30 * 60))
  ∧ (login "alice" "secret" half_past_env (boot alice_store)).1
    = Return {| Token.access_token := alice_token;
                Token.token_type := "bearer" |}
  ∧ jwt.decode alice_token (SECRET_KEY last_moment_env) [ALGORITHM]
      (datetime_utcnow last_moment_env)
    = Raise (PyJWTError ExpiredSignatureError)
  ∧ get_current_user alice_token last_moment_env (boot alice_store)
    = (Raise credentials_exception, boot alice_store).
Proof.
  split.
  - right. split; vm_compute; reflexivity.
  - split; [reflexivity|]. split; reflexivity.
Qed.




(** C10. A token signed with the service secret under the allowed
    algorithm, not expired, whose payload has no subject, decodes, and
    [get_current_user] then raises the 401 error it also raises for a token
    that cannot be parsed; the state is as it was, so no user was looked
    up. *)
Theorem missing_subject_rejected (payload : jwt.Payload) (env : Env)
    (w : World) (garbage : string) :
  jwt.sub payload = None →
  (∀ e, jwt.exp payload = Some e → datetime_utcnow env < e) →
  let token := jwt.encode payload (SECRET_KEY env) ALGORITHM in
  jwt.decode token (SECRET_KEY env) [ALGORITHM] (datetime_utcnow env)
    = Return payload
  ∧ get_current_user token env w = (Raise credentials_exception, w)
  ∧ get_current_user token env w
      = get_current_user (jwt.Unparsable garbage) env w
  ∧ credentials_exception
      = HTTPException 401 "Could not validate credentials"
          (Some [("WWW-Authenticate", "Bearer")]%string)
  ∧ oplog (db (get_current_user token env w).2) = oplog (db w).
Proof.
  intros Hsub Hexp token.
  assert (jwt.decode token (SECRET_KEY env) [ALGORITHM] (datetime_utcnow env)
          = Return payload) as Hdec by (by apply decode_Return).
  assert (get_current_user token env w = (Raise credentials_exception, w))
    as Hreject by (by apply get_current_user_no_subject with (p := payload)).
  split; [done|]. split; [done|]. rewrite Hreject.
  split; [|done].
  symmetry. by apply get_current_user_jwt_error with (e := DecodeError).
Qed.

(** C10 for a token of the service that states an expiry and no subject. *)
Lemma missing_subject_rejected_witness :
  jwt.sub {| jwt.sub := None; jwt.exp := Some 2800 |} = None
  ∧ datetime_utcnow sample_env < 2800
  ∧ get_current_user
      (jwt.encode {| jwt.sub := None; jwt.exp := Some 2800 |}
         (SECRET_KEY sample_env) ALGORITHM)
      sample_env (boot alice_store)
    = (Raise credentials_exception, boot alice_store).
Proof.
  split; [reflexivity|]. split; [vm_compute; reflexivity|].
  apply (missing_subject_rejected {| jwt.sub := None; jwt.exp := Some 2800 |}
           sample_env (boot alice_store) "not.a.token").
  - reflexivity.
  - simpl. intros e He. injection He as <-. vm_compute. reflexivity.
Defined.

(** ** Chat turns *)

(** Unfolding of the handler monad down to the driver, the decoder, the
    limiter and the model, which stay folded. *)
Ltac step_handlers :=
  unfold post_api_chat, get_api_history, rate_limit_middleware,
    rate_limiter_check, oauth2_scheme, get_current_user, chat, get_history,
    first_candidate, db_users_find_one, db_conversations_insert_one,
    db_conversations_find_sort_limit, driver, try_except,
    attempted, mbind, M_bind, mret, M_ret, raise, ask, lift, with_db,
    called, is_Exception, is_PyJWTError in *.

Section ChatFacts.

Lemma drop_length_app {A : Type} (l k : list A) : drop (length l) (l ++ k) = k.
Proof. by rewrite drop_app_length. Qed.

(** A failing [chat] leaves the conversations as they were, and [chat]
    attempts the insertion only with a generated text in hand. *)
Lemma chat_outcome (message : Message.t) (user : User) (env : Env)
    (w : World) :
  let r := chat message user env w in
  (∀ e, r.1 = Raise e → conversations (db r.2) = conversations (db w))
  ∧ users (db r.2) = users (db w)
  ∧ (attempted w r.2 = []
     ∨ attempted w r.2 = [conversations_insert_one (_id user)]
       ∧ ∃ generate text rest,
           model env = Some generate
           ∧ generate (Message.message message) 100 true (7 # 10)%Q
             = Return (text :: rest)).
Proof.
  step_handlers. simpl.
  destruct (model env) as [generate|] eqn:Hmodel; simpl.
  - destruct (generate _ _ _ _) as [[|text rest]|e] eqn:Hgen; simpl.
    + rewrite drop_ge by done. auto.
    + destruct (next_fault (db w)) as [msg|]; simpl;
        rewrite drop_length_app; split; [done| |done|]; split; try done;
        right; split; try done; eauto.
    + rewrite drop_ge by done. auto.
  - rewrite drop_ge by done. auto.
Qed.

Lemma drop_length {A : Type} (l : list A) : drop (length l) l = [].
Proof. by apply drop_ge. Qed.

End ChatFacts.

(** C3. A request to [POST /api/chat] that ends in an error leaves the
    conversations as they were. The handling attempts the insertion of a
    turn only when the loaded model has returned a text for the message. And
    each of these makes the request end in an error: the limiter denies the
    client; there is no token, or [jwt.decode] raises on it (for instance
    because it expired) or its payload has no subject; no user has the name
    of the subject; the model is not loaded; the model raises. *)
Theorem failed_chat_persists_nothing (client_ip : string)
    (authorization : option jwt.token) (message : Message.t) (env : Env)
    (w : World) :
  let r := post_api_chat client_ip authorization message env w in
  (∀ e, r.1 = Raise e → conversations (db r.2) = conversations (db w))
  ∧ (∀ uid, conversations_insert_one uid ∈ attempted w r.2 →
       ∃ generate text rest,
         model env = Some generate
         ∧ generate (Message.message message) 100 true (7 # 10)%Q
           = Return (text :: rest))
  ∧ ((RateLimiting.check client_ip (time_time env) (rate_limiter w)).1 = false
     ∨ (∀ t, authorization = Some t →
          (∃ e, jwt.decode t (SECRET_KEY env) [ALGORITHM] (datetime_utcnow env)
                = Raise e)
          ∨ (∃ p, jwt.decode t (SECRET_KEY env) [ALGORITHM]
                    (datetime_utcnow env) = Return p
                  ∧ jwt.sub p = None))
     ∨ (∃ t p name,
          authorization = Some t
          ∧ jwt.decode t (SECRET_KEY env) [ALGORITHM] (datetime_utcnow env)
            = Return p
          ∧ jwt.sub p = Some name
          ∧ ∀ u, u ∈ users (db w) → username u ≠ name)
     ∨ model env = None
     ∨ (∃ generate e,
          model env = Some generate
          ∧ generate (Message.message message) 100 true (7 # 10)%Q = Raise e)
     → ∃ e, r.1 = Raise e ∧ conversations (db r.2) = conversations (db w)).
Proof.
  step_handlers. simpl.
  destruct (RateLimiting.check _ _ _) as [[|] rl] eqn:Hcheck; simpl.
  2:{ rewrite drop_length. split; [done|]. split; [by intros ? ?%elem_of_nil|].
      eauto. }
  destruct authorization as [t|]; simpl.
  2:{ rewrite drop_length. split; [done|]. split; [by intros ? ?%elem_of_nil|].
      eauto. }
  destruct (jwt.decode t _ _ _) as [p|e] eqn:Hdec; simpl.
  2:{ destruct (decode_raises _ _ _ _ Hdec) as [j ->]. simpl.
      rewrite drop_length. split; [done|].
      split; [by intros ? ?%elem_of_nil|]. eauto. }
  destruct (jwt.sub p) as [name|] eqn:Hsub; simpl.
  2:{ rewrite drop_length. split; [done|]. split; [by intros ? ?%elem_of_nil|].
      eauto. }
  destruct (next_fault (db w)) as [msg|] eqn:Hfault; simpl.
  { rewrite drop_length_app. split; [done|]. split; [|eauto].
    intros uid Hin. apply list_elem_of_singleton in Hin. done. }
  destruct (List.find _ _) as [user|] eqn:Hfind; simpl.
  2:{ rewrite drop_length_app. split; [done|]. split; [|eauto].
      intros uid Hin. apply list_elem_of_singleton in Hin. done. }
  destruct (model env) as [generate|] eqn:Hmodel; simpl.
  2:{ rewrite drop_length_app. split; [done|]. split; [|eauto].
      intros uid Hin. apply list_elem_of_singleton in Hin. done. }
  destruct (generate _ _ _ _) as [[|text rest]|e] eqn:Hgen; simpl.
  1,3: rewrite drop_length_app; (split; [done|]); (split; [|eauto]);
       intros uid Hin; apply list_elem_of_singleton in Hin; done.
  assert (∃ g text' rest', Some generate = Some g
            ∧ g (Message.message message) 100 true (7 # 10)%Q
              = Return (text' :: rest')) as Hgenerated by eauto.
  destruct (next_fault (Build_Database _ _ _ _ _)) as [msg|] eqn:Hfault2;
    simpl.
  - split; [done|]. split; [done|]. eauto.
  - split; [done|]. split; [done|].
    intros [Hc|[Hc|[Hc|[Hc|Hc]]]].
    + done.
    + destruct (Hc t eq_refl) as [[e He]|(p' & Hp' & Hsub')]; congruence.
    + destruct Hc as (t' & p' & name' & [= <-] & Hp' & Hs' & Hnone).
      assert (name' = name) as -> by congruence.
      apply find_some in Hfind as [Hin Heq]. apply String.eqb_eq in Heq.
      apply list_elem_of_In in Hin. by destruct (Hnone user Hin).
    + done.
    + destruct Hc as (g & e & [= <-] & Hg). congruence.
Qed.

(** C4. When the model is loaded and returns a text for the message but
    the store fails the insertion of the turn, [chat] raises the 500 error
    that carries the text of the store's failure; it returns no response, so
    the generated text does not reach the caller, and no turn is stored. *)
Theorem persistence_failure_masks_generation (message : Message.t)
    (user : User) (env : Env) (w : World) (generate : Pipeline)
    (text : string) (rest : list string) (msg : string) :
  model env = Some generate →
  generate (Message.message message) 100 true (7 # 10)%Q
    = Return (text :: rest) →
  next_fault (db w) = Some msg →
  (chat message user env w).1 = Raise (HTTPException 500 msg None)
  ∧ (∀ response, (chat message user env w).1 ≠ Return response)
  ∧ conversations (db (chat message user env w).2) = conversations (db w)
  ∧ attempted w (chat message user env w).2
      = [conversations_insert_one (_id user)].
Proof.
  intros Hmodel Hgen Hfault. step_handlers. simpl.
  rewrite Hmodel. simpl. rewrite Hgen. simpl. rewrite Hfault. simpl.
  rewrite drop_length_app. done.
Qed.

(** C4 on a store that refuses the insertion: the reply ["hello"] of the
    model is lost to a 500 error. *)
Lemma persistence_failure_masks_generation_witness :
  model sample_env = Some echo
  ∧ echo (Message.message hello) 100 true (7 # 10)%Q = Return ["hello"%string]
  ∧ next_fault (db (boot down_store)) = Some "connection refused"%string
  ∧ (chat hello alice sample_env (boot down_store)).1
      = Raise (HTTPException 500 "connection refused" None)
  ∧ conversations (db (chat hello alice sample_env (boot down_store)).2) = [].
Proof.
  destruct (persistence_failure_masks_generation hello alice sample_env
              (boot down_store) echo "hello" [] "connection refused")
    as (Hraise & _ & Hconv & _); [reflexivity|reflexivity|reflexivity|].
  split; [reflexivity|]. split; [reflexivity|]. split; [reflexivity|].
  split; [exact Hraise|exact Hconv].
Defined.

(** ** History *)

Section HistoryFacts.

#[local] Instance newer_first_trans : Transitive newer_first.
Proof. intros a b c. unfold newer_first. lia. Qed.

#[local] Instance newer_first_total : Total newer_first.
Proof. intros a b. unfold newer_first. lia. Qed.

Lemma sort_desc_Permutation (l : list Conversation) : sort_desc l ≡ₚ l.
Proof. apply merge_sort_Permutation. Qed.

Lemma sort_desc_sorted (l : list Conversation) :
  StronglySorted newer_first (sort_desc l).
Proof. apply StronglySorted_merge_sort; apply _. Qed.

Lemma take_sorted (n : nat) (l : list Conversation) :
  StronglySorted newer_first l → StronglySorted newer_first (take n l).
Proof.
  intros Hs. rewrite <- (take_drop n l) in Hs.
  by apply StronglySorted_app_1_l in Hs.
Qed.

(** A document newer than all the others comes first once sorted. *)
Lemma sort_desc_head (l : list Conversation) (d : Conversation) :
  (∀ x, x ∈ l → timestamp x < timestamp d) →
  head (sort_desc (l ++ [d])) = Some d.
Proof.
  intros Hnew.
  pose proof (sort_desc_Permutation (l ++ [d])) as Hperm.
  pose proof (sort_desc_sorted (l ++ [d])) as Hsorted.
  destruct (sort_desc (l ++ [d])) as [|h tl].
  { apply Permutation_nil_l in Hperm. by destruct l. }
  simpl. f_equal.
  assert (h ∈ l ++ [d]) as Hh by (rewrite <- Hperm; by left).
  assert (d ∈ h :: tl) as Hd by (rewrite Hperm, elem_of_app; right; by left).
  apply elem_of_app in Hh as [Hh|Hh]; [|by apply list_elem_of_singleton in Hh].
  apply Hnew in Hh. apply elem_of_cons in Hd as [->|Hd]; [lia|].
  apply StronglySorted_inv in Hsorted as [_ Hall].
  rewrite Forall_forall in Hall. specialize (Hall d Hd).
  unfold newer_first in Hall. lia.
Qed.

(** A successful [chat] appends one turn, with the text it returns. *)
Lemma chat_Return (message : Message.t) (user : User) (env : Env)
    (w w' : World) (response : ChatResponse.t) :
  chat message user env w = (Return response, w') →
  conversations (db w') =
    conversations (db w) ++
      [{| doc_id := next_id (db w); user_id := _id user;
          user_message := Message.message message;
          bot_response := ChatResponse.message response;
          timestamp := datetime_now env |}].
Proof.
  step_handlers. simpl.
  destruct (model env) as [generate|]; simpl; [|done].
  destruct (generate _ _ _ _) as [[|text rest]|e]; simpl; [done| |done].
  destruct (next_fault (db w)); simpl; [done|].
  by intros [= <- <-].
Qed.

End HistoryFacts.

(** C8 as the code has it. When the store answers, [get_history] returns
    the entries of the first 50 (or of all, when there are fewer) of the
    user's turns in descending order of timestamp: every entry is that of a
    stored turn of the user, and the timestamps never increase along the
    answer. After a successful [chat] of the user whose timestamp is later
    than that of every turn the user already had, the new turn is the first
    entry. *)
Theorem history_newest_first (user : User) (env : Env) (w : World) :
  next_fault (db w) = None →
  ∃ docs : list Conversation,
    (get_history user env w).1 = Return (history_entry <$> docs)
    ∧ Forall (λ doc, doc ∈ conversations (db w) ∧ user_id doc = _id user) docs
    ∧ StronglySorted
        (λ a b, ChatHistory.timestamp b ≤ ChatHistory.timestamp a)
        (history_entry <$> docs)
    ∧ length docs
        = (50 `min` length (filter (λ doc, user_id doc = _id user)
                              (conversations (db w))))%nat
    ∧ (∀ (message : Message.t) (env0 : Env) (w0 : World)
         (response : ChatResponse.t),
         chat message user env0 w0 = (Return response, w) →
         (∀ doc, doc ∈ conversations (db w0) → user_id doc = _id user →
                 timestamp doc < datetime_now env0) →
         head (history_entry <$> docs) =
           Some {| ChatHistory.id := next_id (db w0);
                   ChatHistory.user_message := Message.message message;
                   ChatHistory.bot_response := ChatResponse.message response;
                   ChatHistory.timestamp := datetime_now env0 |}).
Proof.
  intros Hup.
  set (mine := filter (λ doc, user_id doc = _id user) (conversations (db w))).
  exists (take 50 (sort_desc mine)).
  split; [|split; [|split; [|split]]].
  - step_handlers. simpl. by rewrite Hup.
  - apply Forall_forall. intros doc Hdoc.
    apply subseteq_take in Hdoc. rewrite sort_desc_Permutation in Hdoc.
    apply list_elem_of_filter in Hdoc. tauto.
  - apply (StronglySorted_fmap _ newer_first); [done|].
    apply take_sorted, sort_desc_sorted.
  - rewrite length_take. by rewrite sort_desc_Permutation.
  - intros message env0 w0 response Hchat Hnewest.
    apply chat_Return in Hchat. unfold mine. rewrite Hchat, filter_app.
    rewrite filter_cons_True, filter_nil by done.
    set (new := Build_Conversation _ _ _ _ _).
    assert (head (sort_desc
              (filter (λ doc, user_id doc = _id user) (conversations (db w0))
               ++ [new])) = Some new) as Hhead.
    { apply sort_desc_head. intros x Hx.
      apply list_elem_of_filter in Hx as [Hid Hx]. by apply Hnewest. }
    destruct (sort_desc _) as [|h tl]; [done|].
    simpl in Hhead. injection Hhead as ->. done.
Qed.

(** C8 as amended, after a chat of [alice] at the wall-clock instant 200 on
    the store that holds her turn of instant 100: the new turn comes
    first. *)
Lemma history_newest_first_witness :
  next_fault (db (chat hello alice later_env (boot skewed_store)).2) = None
  ∧ ∃ docs : list Conversation,
      (get_history alice later_env
         (chat hello alice later_env (boot skewed_store)).2).1
        = Return (history_entry <$> docs)
      ∧ head (history_entry <$> docs)
        = Some {| ChatHistory.id := 2%N; ChatHistory.user_message := "hello";
                  ChatHistory.bot_response := "hello";
                  ChatHistory.timestamp := 200 |}.
Proof.
  split; [reflexivity|].
  destruct (history_newest_first alice later_env
              (chat hello alice later_env (boot skewed_store)).2)
    as (docs & Hres & _ & _ & _ & Hhead); [reflexivity|].
  exists docs. split; [exact Hres|].
  apply (Hhead hello later_env (boot skewed_store)
           {| ChatResponse.message := "hello" |}).
  - reflexivity.
  - simpl. intros doc Hdoc _. apply list_elem_of_singleton in Hdoc.
    rewrite Hdoc. vm_compute. reflexivity.
Defined.

(** The claim of C8 fails as stated: in a store where a turn of the user
    carries the timestamp 100, a chat turn that succeeds when the clock
    reads 50 is returned after that turn, not first. *)
Lemma history_new_turn_not_first :
  (chat hello alice sample_env (boot skewed_store)).1
    = Return {| ChatResponse.message := "hello" |}
  ∧ (get_history alice sample_env
       (chat hello alice sample_env (boot skewed_store)).2).1
      = Return [history_entry earlier_turn;
                {| ChatHistory.id := 2%N; ChatHistory.user_message := "hello";
                   ChatHistory.bot_response := "hello";
                   ChatHistory.timestamp := 50 |}]
  ∧ head [history_entry earlier_turn;
          {| ChatHistory.id := 2%N; ChatHistory.user_message := "hello";
             ChatHistory.bot_response := "hello";
             ChatHistory.timestamp := 50 |}]
    ≠ Some {| ChatHistory.id := 2%N; ChatHistory.user_message := "hello";
              ChatHistory.bot_response := "hello";
              ChatHistory.timestamp := 50 |}.
Proof.
  vm_compute. split; [reflexivity|]. split; [reflexivity|]. discriminate.
Qed.

(** ** Scenarios of [POST /api/chat] that fail *)

(** The sixty-first request of a client within the minute is refused with
    the 429 error, and nothing is stored. *)
Example chat_rate_limited :
  post_api_chat "10.0.0.1" (Some alice_token) hello sample_env
    {| db := alice_store;
       rate_limiter := RateLimiting.run
                         (replicate 60 ("10.0.0.1"%string, 990))
                         RateLimiting.rate_limiter |}
  = (Raise (HTTPException 429 "Too many requests" None),
     {| db := alice_store;
        rate_limiter := RateLimiting.run
                          (replicate 60 ("10.0.0.1"%string, 990))
                          RateLimiting.rate_limiter |}).
Proof. vm_compute. reflexivity. Qed.

(** A request with a token that expired gets the 401 error; the store is
    not consulted and nothing is stored. *)
Example chat_expired_token :
  (post_api_chat "10.0.0.1" (Some alice_token) hello hour_later_env
     (boot alice_store)).1 = Raise credentials_exception
  ∧ db (post_api_chat "10.0.0.1" (Some alice_token) hello hour_later_env
          (boot alice_store)).2 = alice_store.
Proof. vm_compute. split; reflexivity. Qed.

(** With no model loaded the request gets the 503 error. *)
Example chat_model_not_loaded :
  (post_api_chat "10.0.0.1" (Some alice_token) hello unloaded_env
     (boot alice_store)).1 = Raise (HTTPException 503 "Model not loaded" None)
  ∧ conversations
      (db (post_api_chat "10.0.0.1" (Some alice_token) hello unloaded_env
             (boot alice_store)).2) = [].
Proof. vm_compute. split; reflexivity. Qed.

(** When the model raises, the request gets the 500 error with the text of
    the exception. *)
Example chat_generation_raises :
  (post_api_chat "10.0.0.1" (Some alice_token) hello broken_env
     (boot alice_store)).1 = Raise (HTTPException 500 "out of memory" None)
  ∧ conversations
      (db (post_api_chat "10.0.0.1" (Some alice_token) hello broken_env
             (boot alice_store)).2) = [].
Proof. vm_compute. split; reflexivity. Qed.

(** The whole path: a chat of [alice], then her history. *)
Example chat_then_history :
  (post_api_chat "10.0.0.1" (Some alice_token) hello sample_env
     (boot alice_store)).1 = Return {| ChatResponse.message := "hello" |}
  ∧ (get_api_history "10.0.0.1" (Some alice_token) sample_env
       (post_api_chat "10.0.0.1" (Some alice_token) hello sample_env
          (boot alice_store)).2).1
    = Return [{| ChatHistory.id := 1%N; ChatHistory.user_message := "hello";
                 ChatHistory.bot_response := "hello";
                 ChatHistory.timestamp := 50 |}].
Proof. vm_compute. split; reflexivity. Qed.

(** From an empty store: registration, login, one chat turn, and the
    history, which then holds exactly that turn. *)
Example register_login_chat_history :
  (register alice_signup sample_env (boot empty_db)).1
    = Return "User created successfully"%string
  ∧ (login "alice" "secret" sample_env
       (register alice_signup sample_env (boot empty_db)).2).1
    = Return {| Token.access_token := alice_token;
                Token.token_type := "bearer" |}
  ∧ (get_api_history "10.0.0.1" (Some alice_token) sample_env
       (post_api_chat "10.0.0.1" (Some alice_token) hello sample_env
          (login "alice" "secret" sample_env
             (register alice_signup sample_env (boot empty_db)).2).2).2).1
    = Return [{| ChatHistory.id := 1%N; ChatHistory.user_message := "hello";
                 ChatHistory.bot_response := "hello";
                 ChatHistory.timestamp := 50 |}].
Proof. vm_compute. split; [reflexivity|]. split; reflexivity. Qed.

(** * Further properties *)

(** ** The rate limiter *)

Section RateLimiterMore.
Import RateLimiting.

Implicit Types (self : RateLimiter) (l : list Z) (calls : list (string * Z)).

(** [check] for one client reads and writes the entry of that client
    only. *)
Lemma check_agree c t self1 self2 :
  requests_per_minute self1 = requests_per_minute self2 →
  requests self1 !! c = requests self2 !! c →
  (check c t self1).1 = (check c t self2).1
  ∧ requests (check c t self1).2 !! c = requests (check c t self2).2 !! c.
Proof.
  intros Hlim Hc. unfold check. rewrite <- Hc, <- Hlim.
  destruct (requests self1 !! c) as [l|] eqn:Hl; simpl.
  - destruct (_ >=? _); simpl; [by rewrite Hl|].
    by rewrite !lookup_insert_eq.
  - by rewrite !lookup_insert_eq.
Qed.

Lemma check_lookup_other c c' t self :
  c ≠ c' → requests (check c t self).2 !! c' = requests self !! c'.
Proof.
  intros Hne. unfold check.
  destruct (requests self !! c) as [l|]; simpl.
  - destruct (_ >=? _); simpl; [done|]. by rewrite lookup_insert_ne.
  - by rewrite lookup_insert_ne.
Qed.

Lemma run_agree c calls self1 self2 :
  requests_per_minute self1 = requests_per_minute self2 →
  requests self1 !! c = requests self2 !! c →
  requests (run calls self1) !! c
    = requests (run (filter (λ ct, ct.1 = c) calls) self2) !! c
  ∧ admitted c calls self1
    = admitted c (filter (λ ct, ct.1 = c) calls) self2.
Proof.
  revert self1 self2.
  induction calls as [|[c' t] calls IH]; intros self1 self2 Hlim Hc; [done|].
  rewrite filter_cons. simpl. destruct (decide (c' = c)) as [->|Hne].
  - simpl. destruct (check_agree c t self1 self2 Hlim Hc) as [Hdec Hnext].
    rewrite Hdec.
    destruct (IH (check c t self1).2 (check c t self2).2) as [-> ->];
      [by rewrite !check_requests_per_minute|done|done].
  - rewrite bool_decide_eq_false_2, andb_false_r by done. simpl.
    apply IH; [by rewrite check_requests_per_minute|].
    by rewrite check_lookup_other.
Qed.

Lemma dom_check c t self :
  dom (requests (check c t self).2) = {[c]} ∪ dom (requests self).
Proof.
  unfold check. destruct (requests self !! c) as [l|] eqn:Hl; simpl.
  - assert (c ∈ dom (requests self)) as Hc by (apply elem_of_dom; eauto).
    destruct (_ >=? _); simpl; [|by rewrite dom_insert_L].
    apply set_eq. intros x. rewrite elem_of_union, elem_of_singleton.
    split; [by right|]. by intros [->|?].
  - by rewrite dom_insert_L.
Qed.

Lemma bounded_retained c self :
  bounded self → 0 ≤ requests_per_minute self →
  Z.of_nat (length (retained c self)) ≤ requests_per_minute self.
Proof.
  intros Hb Hlim. unfold retained.
  destruct (requests self !! c) as [l|] eqn:Hl; simpl; [by apply Hb in Hl|lia].
Qed.

End RateLimiterMore.

(** X1. A limiter that started empty with a limit of at least one never
    admits more calls of one client than the limit within the 60 seconds
    before an instant that none of the client's calls is later than. *)
Theorem admitted_within_window (limit : Z) (calls : list (string * Z))
    (client_ip : string) (now : Z) :
  1 ≤ limit →
  Forall (λ ct, ct.1 = client_ip → ct.2 ≤ now) calls →
  Z.of_nat (length (RateLimiting.prune now
                      (RateLimiting.admitted client_ip calls
                         (RateLimiting.init limit)))) ≤ limit.
Proof.
  intros Hlim Hcalls.
  pose proof (admitted_retained client_ip now calls (RateLimiting.init limit)
                Hcalls) as Hkeep.
  pose proof (length_prune now
    (RateLimiting.retained client_ip
       (RateLimiting.run calls (RateLimiting.init limit)))) as Hlen.
  assert (RateLimiting.bounded (RateLimiting.run calls (RateLimiting.init limit)))
    as Hb by (apply bounded_run; [done|apply bounded_init; lia]).
  pose proof (bounded_retained client_ip _ Hb) as Hall.
  rewrite run_requests_per_minute in Hall. simpl in Hall. lia.
Qed.

(** X1 at the service's limit: of sixty-five calls of one client at
    instant 0, sixty are admitted. *)
Lemma admitted_within_window_witness :
  1 ≤ 60
  ∧ Z.of_nat (length (RateLimiting.prune 59
                        (RateLimiting.admitted "10.0.0.1"
                           (replicate 65 ("10.0.0.1"%string, 0))
                           (RateLimiting.init 60)))) ≤ 60
  ∧ length (RateLimiting.admitted "10.0.0.1"
              (replicate 65 ("10.0.0.1"%string, 0))
              (RateLimiting.init 60)) = 60%nat.
Proof.
  split; [vm_compute; discriminate|]. split; [|vm_compute; reflexivity].
  apply (admitted_within_window 60 (replicate 65 ("10.0.0.1"%string, 0))
           "10.0.0.1" 59).
  - vm_compute. discriminate.
  - apply Forall_replicate. simpl. intros _. vm_compute. discriminate.
Defined.

(** X2. The calls of other clients change nothing for a client: after any
    sequence of calls, the entry of the client, the instants at which it was
    admitted and the answer to its next call are those of the sequence with
    the calls of the others left out. *)
Theorem clients_independent (client_ip : string) (calls : list (string * Z))
    (self : RateLimiting.RateLimiter) (now : Z) :
  RateLimiting.requests (RateLimiting.run calls self) !! client_ip
    = RateLimiting.requests
        (RateLimiting.run (filter (λ ct, ct.1 = client_ip) calls) self)
        !! client_ip
  ∧ RateLimiting.admitted client_ip calls self
    = RateLimiting.admitted client_ip
        (filter (λ ct, ct.1 = client_ip) calls) self
  ∧ (RateLimiting.check client_ip now (RateLimiting.run calls self)).1
    = (RateLimiting.check client_ip now
         (RateLimiting.run (filter (λ ct, ct.1 = client_ip) calls) self)).1.
Proof.
  destruct (run_agree client_ip calls self self eq_refl eq_refl)
    as [Hentry Hadm].
  split; [done|]. split; [done|].
  apply check_agree; [|done]. by rewrite !run_requests_per_minute.
Qed.

(** X3. With a limit of at least one, a call of a client whose retained
    instants are all 60 seconds old or older is admitted, and the entry of
    the client becomes that one instant. *)
Theorem check_after_quiet_minute (client_ip : string) (now : Z)
    (self : RateLimiting.RateLimiter) :
  1 ≤ RateLimiting.requests_per_minute self →
  Forall (λ t, 60 ≤ now - t) (RateLimiting.retained client_ip self) →
  RateLimiting.check client_ip now self =
    (true,
     {| RateLimiting.requests_per_minute :=
          RateLimiting.requests_per_minute self;
        RateLimiting.requests :=
          <[client_ip := [now]]> (RateLimiting.requests self) |}).
Proof.
  intros Hlim Hold.
  assert (RateLimiting.prune now (RateLimiting.retained client_ip self) = [])
    as Hnone.
  { unfold RateLimiting.prune.
    induction Hold as [|t l Ht _ IH]; [done|].
    rewrite filter_cons_False by lia. done. }
  rewrite check_unfold by done. rewrite Hnone. simpl.
  destruct (_ >=? _) eqn:E; [|done]. apply Z.geb_le in E. lia.
Qed.

(** X3 at the service's limiter: after sixty calls at instant 0 the call at
    instant 60 is admitted and the entry is reset to it. *)
Lemma check_after_quiet_minute_witness :
  1 ≤ RateLimiting.requests_per_minute
        (RateLimiting.run burst RateLimiting.rate_limiter)
  ∧ Forall (λ t, 60 ≤ 60 - t)
      (RateLimiting.retained "10.0.0.1"
         (RateLimiting.run burst RateLimiting.rate_limiter))
  ∧ RateLimiting.retained "10.0.0.1"
      (RateLimiting.check "10.0.0.1" 60
         (RateLimiting.run burst RateLimiting.rate_limiter)).2 = [60].
Proof.
  assert (Forall (λ t, 60 ≤ 60 - t)
            (RateLimiting.retained "10.0.0.1"
               (RateLimiting.run burst RateLimiting.rate_limiter))) as Hold.
  { apply Forall_forall. intros t Ht.
    apply retained_run in Ht as [Ht|Ht].
    - vm_compute in Ht. by apply elem_of_nil in Ht.
    - unfold burst in Ht. apply elem_of_replicate in Ht as [[= ->] _].
      vm_compute. discriminate. }
  split; [vm_compute; discriminate|]. split; [exact Hold|].
  rewrite (check_after_quiet_minute "10.0.0.1" 60
             (RateLimiting.run burst RateLimiting.rate_limiter));
    [|vm_compute; discriminate|exact Hold].
  unfold RateLimiting.retained. cbn [snd RateLimiting.requests].
  rewrite lookup_insert_eq. reflexivity.
Defined.

(** X4. The limiter never drops a client: after a call the clients with an
    entry are those before it and the caller, and after a sequence of calls
    those before it and every caller of the sequence. *)
Theorem limiter_never_evicts (calls : list (string * Z))
    (self : RateLimiting.RateLimiter) :
  dom (RateLimiting.requests (RateLimiting.run calls self))
    = list_to_set calls.*1 ∪ dom (RateLimiting.requests self).
Proof.
  revert self. induction calls as [|[c t] calls IH]; intros self.
  { simpl. by rewrite (left_id_L ∅ (∪)). }
  simpl. rewrite IH, dom_check.
  apply set_eq. intros x. rewrite !elem_of_union. tauto.
Qed.

(** X5. With a limit of zero or less, an empty limiter admits the first
    call of each client and denies every later call of that client, however
    much later it comes. *)
Theorem nonpositive_limit_admits_once (limit : Z) (calls : list (string * Z))
    (client_ip : string) :
  limit ≤ 0 →
  RateLimiting.admitted client_ip calls (RateLimiting.init limit)
    = take 1 (filter (λ ct, ct.1 = client_ip) calls).*2.
Proof.
  intros Hlim.
  destruct (run_agree client_ip calls (RateLimiting.init limit)
              (RateLimiting.init limit) eq_refl eq_refl) as [_ ->].
  assert (∀ t self,
            RateLimiting.requests_per_minute self ≤ 0 →
            is_Some (RateLimiting.requests self !! client_ip) →
            RateLimiting.check client_ip t self = (false, self)) as Hcheck.
  { intros t self Hl [l Hin]. unfold RateLimiting.check. rewrite Hin. simpl.
    destruct (_ >=? _) eqn:E; [done|].
    rewrite Z.geb_leb in E. apply Z.leb_gt in E. lia. }
  assert (∀ calls self,
            Forall (λ ct, ct.1 = client_ip) calls →
            RateLimiting.requests_per_minute self ≤ 0 →
            is_Some (RateLimiting.requests self !! client_ip) →
            RateLimiting.admitted client_ip calls self = []) as Hdenied.
  { clear calls. induction calls as [|[c t] calls IH]; intros self Hc Hl Hin;
      [done|].
    apply Forall_cons in Hc as [Hc Hcalls]. simpl in Hc. subst c.
    cbn [RateLimiting.admitted]. rewrite Hcheck by done. simpl.
    by apply IH. }
  assert (Forall (λ ct : string * Z, ct.1 = client_ip)
            (filter (λ ct, ct.1 = client_ip) calls)) as Hmine.
  { apply Forall_forall. intros ct Hct.
    by apply list_elem_of_filter in Hct as [? _]. }
  destruct (filter _ calls) as [|[c t] rest]; [done|].
  apply Forall_cons in Hmine as [Hc Hrest]. simpl in Hc. subst c.
  simpl. rewrite bool_decide_eq_true_2 by done. simpl.
  rewrite take_0. f_equal.
  apply Hdenied; [done|by rewrite check_requests_per_minute|].
  apply elem_of_dom. rewrite dom_check. apply elem_of_union_l.
  by apply elem_of_singleton.
Qed.

(** X5 at the limit zero: of three calls of a client, the second a day
    after the first, only the first is admitted. *)
Lemma nonpositive_limit_admits_once_witness :
  0 ≤ 0
  ∧ RateLimiting.admitted "10.0.0.1"
      [("10.0.0.1"%string, 0); ("10.0.0.2"%string, 5);
       ("10.0.0.1"%string, 86400); ("10.0.0.1"%string, 86401)]
      (RateLimiting.init 0) = [0].
Proof.
  split; [vm_compute; discriminate|].
  rewrite (nonpositive_limit_admits_once 0 _ "10.0.0.1");
    [|vm_compute; discriminate].
  vm_compute. reflexivity.
Defined.

(** ** The application as a whole *)

(** Unfolding of the routes down to the driver, the decoder, the limiter
    and the model. *)
Ltac step_routes :=
  unfold app, post_api_register, post_api_login, register, login,
    bad_credentials, db_users_insert_one in *;
  step_handlers.

Section AppFacts.

(** What one request can do to the process: the limiter takes the call; at
    most one user is appended, under a name no stored user has; at most one
    turn is appended, of a stored user. *)
Lemma app_step (client_ip : string) (req : request) (env : Env) (w : World) :
  let w' := (app client_ip req env w).2 in
  rate_limiter w'
    = (RateLimiting.check client_ip (time_time env) (rate_limiter w)).2
  ∧ (users (db w') = users (db w)
     ∨ ∃ new, users (db w') = users (db w) ++ [new]
              ∧ ∀ u, u ∈ users (db w) → username u ≠ username new)
  ∧ (conversations (db w') = conversations (db w)
     ∨ ∃ new u, conversations (db w') = conversations (db w) ++ [new]
                ∧ u ∈ users (db w) ∧ user_id new = _id u).
Proof.
  destruct req as [user|name pass|authorization message|authorization];
    step_routes; simpl;
    destruct (RateLimiting.check _ _ _) as [[|] rl]; simpl; auto.
  - destruct (next_fault (db w)); simpl; auto.
    destruct (List.find _ _) as [u|] eqn:Hfind; simpl; auto.
    destruct (next_fault (Build_Database _ _ _ _ _)); simpl; auto.
    split; [done|]. split; [|auto]. right. eexists. split; [done|].
    simpl. intros u Hu Hname. apply list_elem_of_In in Hu.
    apply (find_none _ _ Hfind) in Hu. simpl in Hu.
    apply String.eqb_neq in Hu. done.
  - destruct (next_fault (db w)); simpl; auto.
    destruct (List.find _ _) as [u|]; simpl; auto.
    destruct (negb _); simpl; auto.
  - destruct authorization as [t|]; simpl; auto.
    destruct (jwt.decode t _ _ _) as [p|e] eqn:Hdec; simpl.
    2:{ destruct (decode_raises _ _ _ _ Hdec) as [j ->]. simpl. auto. }
    destruct (jwt.sub p); simpl; auto.
    destruct (next_fault (db w)); simpl; auto.
    destruct (List.find _ _) as [u|] eqn:Hfind; simpl; auto.
    destruct (model env) as [generate|]; simpl; auto.
    destruct (generate _ _ _ _) as [[|text rest]|e]; simpl; auto.
    destruct (next_fault (Build_Database _ _ _ _ _)); simpl; auto.
    split; [done|]. split; [auto|]. right. eexists _, u. split; [done|].
    apply find_some in Hfind as [Hin _]. apply list_elem_of_In in Hin. done.
  - destruct authorization as [t|]; simpl; auto.
    destruct (jwt.decode t _ _ _) as [p|e] eqn:Hdec; simpl.
    2:{ destruct (decode_raises _ _ _ _ Hdec) as [j ->]. simpl. auto. }
    destruct (jwt.sub p); simpl; auto.
    destruct (next_fault (db w)); simpl; auto.
    destruct (List.find _ _) as [u|]; simpl; auto.
    destruct (next_fault (Build_Database _ _ _ _ _)); simpl; auto.
Qed.

End AppFacts.

(** X6. Whatever the routes and the outcomes, the limiter after a sequence
    of requests is the limiter after the calls of [check] for their
    addresses at their instants: failed and unauthenticated requests count
    as well, and no handler touches the limiter. A request the limiter
    denies gets the 429 error on every route and changes nothing. *)
Theorem limiter_counts_every_request (reqs : list (Env * string * request))
    (w : World) :
  rate_limiter (serve reqs w)
    = RateLimiting.run ((λ r, (r.1.2, time_time r.1.1)) <$> reqs)
        (rate_limiter w)
  ∧ ∀ (client_ip : string) (req : request) (env : Env),
      (RateLimiting.check client_ip (time_time env)
         (rate_limiter (serve reqs w))).1 = false →
      app client_ip req env (serve reqs w)
        = (Raise (HTTPException 429 "Too many requests" None), serve reqs w).
Proof.
  split.
  - revert w. induction reqs as [|[[env ip] req] reqs IH]; intros w; [done|].
    simpl. rewrite IH. by destruct (app_step ip req env w) as [-> _].
  - intros client_ip req env Hdeny. generalize dependent (serve reqs w).
    intros w0 Hdeny.
    destruct (RateLimiting.check _ _ _) as [ok rl] eqn:Hcheck.
    simpl in Hdeny. subst ok.
    assert (rl = rate_limiter w0) as ->.
    { revert Hcheck. unfold RateLimiting.check.
      destruct (_ !! _); [|done]. simpl. destruct (_ >=? _); [|done].
      by intros [= <-]. }
    destruct req; step_routes; simpl; rewrite Hcheck; simpl; by destruct w0.
Qed.

(** X7. Handling requests one after the other never removes or alters a
    stored user or turn: the users and the turns before a sequence of
    requests are the first users and the first turns after it. *)
Theorem collections_append_only (reqs : list (Env * string * request))
    (w : World) :
  users (db w) `prefix_of` users (db (serve reqs w))
  ∧ conversations (db w) `prefix_of` conversations (db (serve reqs w)).
Proof.
  revert w. induction reqs as [|[[env ip] req] reqs IH]; intros w; [done|].
  simpl. destruct (IH (app ip req env w).2) as [Hu Hc].
  destruct (app_step ip req env w) as (_ & Husers & Hconv).
  split.
  - etrans; [|exact Hu].
    destruct Husers as [->|(new & -> & _)]; [done|]. by apply prefix_app_r.
  - etrans; [|exact Hc].
    destruct Hconv as [->|(new & u & -> & _)]; [done|]. by apply prefix_app_r.
Qed.

(** X8. Handled one after the other, requests keep usernames unique: when
    no two stored users share a name before a sequence of requests, none do
    after it. *)
Theorem usernames_stay_unique (reqs : list (Env * string * request))
    (w : World) :
  NoDup (username <$> users (db w)) →
  NoDup (username <$> users (db (serve reqs w))).
Proof.
  revert w. induction reqs as [|[[env ip] req] reqs IH]; intros w Hw; [done|].
  simpl. apply IH.
  destruct (app_step ip req env w) as (_ & [->|(new & -> & Hfresh)] & _);
    [done|].
  rewrite fmap_app. simpl. apply NoDup_app. split; [done|]. split.
  - intros name Hname Hnew. apply list_elem_of_singleton in Hnew as ->.
    apply list_elem_of_fmap in Hname as (u & Heq & Hu).
    by destruct (Hfresh u Hu).
  - apply NoDup_singleton.
Qed.

(** X8 on the store of [alice], after a second registration of her name
    and the registration of [bob]. *)
Lemma usernames_stay_unique_witness :
  NoDup (username <$> users (db (boot alice_store)))
  ∧ NoDup (username <$>
             users (db (serve
                          [(sample_env, "10.0.0.1"%string,
                            POST_api_register alice_again);
                           (sample_env, "10.0.0.1"%string,
                            POST_api_register bob_signup)]
                          (boot alice_store))))
  ∧ username <$>
      users (db (serve
                   [(sample_env, "10.0.0.1"%string,
                     POST_api_register alice_again);
                    (sample_env, "10.0.0.1"%string,
                     POST_api_register bob_signup)]
                   (boot alice_store)))
    = ["alice"; "bob"]%string.
Proof.
  assert (NoDup (username <$> users (db (boot alice_store)))) as Hw.
  { simpl. apply NoDup_singleton. }
  split; [exact Hw|]. split; [|vm_compute; reflexivity].
  apply (usernames_stay_unique _ (boot alice_store) Hw).
Defined.

(** X9. Every stored turn belongs to a stored user: when that holds before
    a sequence of requests, it holds after it. *)
Theorem turns_have_owners (reqs : list (Env * string * request)) (w : World) :
  (∀ doc, doc ∈ conversations (db w) →
          ∃ u, u ∈ users (db w) ∧ _id u = user_id doc) →
  ∀ doc, doc ∈ conversations (db (serve reqs w)) →
         ∃ u, u ∈ users (db (serve reqs w)) ∧ _id u = user_id doc.
Proof.
  revert w. induction reqs as [|[[env ip] req] reqs IH]; intros w Hw; [done|].
  simpl. apply IH. intros doc Hdoc.
  destruct (app_step ip req env w) as (_ & Husers & Hconv).
  assert (∀ u, u ∈ users (db w) → u ∈ users (db (app ip req env w).2))
    as Hkept.
  { intros u Hu. destruct Husers as [->|(new & -> & _)]; [done|].
    apply elem_of_app. by left. }
  destruct Hconv as [Heq|(new & u & Heq & Hu & Hid)]; rewrite Heq in Hdoc.
  - destruct (Hw doc Hdoc) as (u & Hu & Hid). eauto.
  - apply elem_of_app in Hdoc as [Hdoc|Hdoc].
    + destruct (Hw doc Hdoc) as (u' & Hu' & Hid'). eauto.
    + apply list_elem_of_singleton in Hdoc as ->. eauto.
Qed.

(** X9 from the store of [alice] after one chat turn of hers. *)
Lemma turns_have_owners_witness :
  (∀ doc, doc ∈ conversations (db (boot alice_store)) →
          ∃ u, u ∈ users (db (boot alice_store)) ∧ _id u = user_id doc)
  ∧ ∀ doc,
      doc ∈ conversations
              (db (serve [(sample_env, "10.0.0.1"%string,
                           POST_api_chat (Some alice_token) hello)]
                     (boot alice_store))) →
      ∃ u, u ∈ users (db (serve [(sample_env, "10.0.0.1"%string,
                                  POST_api_chat (Some alice_token) hello)]
                            (boot alice_store)))
           ∧ _id u = user_id doc.
Proof.
  assert (∀ doc, doc ∈ conversations (db (boot alice_store)) →
            ∃ u, u ∈ users (db (boot alice_store)) ∧ _id u = user_id doc)
    as Hw.
  { simpl. intros doc Hdoc. by apply elem_of_nil in Hdoc. }
  split; [exact Hw|].
  apply (turns_have_owners _ (boot alice_store) Hw).
Defined.

(** ** Authentication, registration and login *)

Section FindFacts.
Context {A : Type} (f : A → bool).


(** What [find] returns is the first element that passes. *)
Lemma find_split (l : list A) (x : A) :
  List.find f l = Some x →
  ∃ before after,
    l = before ++ x :: after ∧ (∀ y, y ∈ before → f y = false) ∧ f x = true.
Proof.
  induction l as [|y l IH]; [done|]. simpl. destruct (f y) eqn:Hy.
  - intros [= ->]. exists [], l. split; [done|]. split; [|done].
    intros ? Hin. by apply elem_of_nil in Hin.
  - intros Hfind. destruct (IH Hfind) as (before & after & -> & Hb & Hx).
    exists (y :: before), after. split; [done|]. split; [|done].
    intros z Hz. apply elem_of_cons in Hz as [->|Hz]; auto.
Qed.

End FindFacts.

(** X10. [get_current_user] returns a user only for a token signed with the
    service secret under HS256 that has not expired, and the user it returns
    is a stored user whose name is the subject of the token; it changes
    neither the collections nor the limiter. *)
Theorem get_current_user_sound (token : jwt.token) (env : Env) (w w' : World)
    (user : User) :
  get_current_user token env w = (Return user, w') →
  (∃ payload,
     token = jwt.encode payload (SECRET_KEY env) ALGORITHM
     ∧ jwt.sub payload = Some (username user)
     ∧ ∀ e, jwt.exp payload = Some e → datetime_utcnow env < e)
  ∧ user ∈ users (db w)
  ∧ users (db w') = users (db w)
  ∧ conversations (db w') = conversations (db w)
  ∧ rate_limiter w' = rate_limiter w.
Proof.
  step_handlers. simpl.
  destruct (jwt.decode token _ _ _) as [p|e] eqn:Hdec; simpl.
  2:{ destruct (decode_raises _ _ _ _ Hdec) as [j ->]. done. }
  destruct (jwt.sub p) as [name|] eqn:Hsub; simpl; [|done].
  destruct (next_fault (db w)); simpl; [done|].
  destruct (List.find _ _) as [u|] eqn:Hfind; simpl; [|done].
  intros [= -> <-]. simpl.
  apply find_some in Hfind as [Hin Hname]. apply String.eqb_eq in Hname.
  apply list_elem_of_In in Hin. apply decode_Return in Hdec as [-> Hexp].
  split; [|done]. exists p. by rewrite Hname.
Qed.

(** X10 for the token of [alice] at instant 1000. *)
Lemma get_current_user_sound_witness :
  get_current_user alice_token sample_env (boot alice_store)
    = (Return alice,
       (get_current_user alice_token sample_env (boot alice_store)).2)
  ∧ alice ∈ users (db (boot alice_store)).
Proof.
  assert (get_current_user alice_token sample_env (boot alice_store)
          = (Return alice,
             (get_current_user alice_token sample_env (boot alice_store)).2))
    as Hrun by reflexivity.
  split; [exact Hrun|].
  exact (proj1 (proj2 (get_current_user_sound _ _ _ _ _ Hrun))).
Defined.

(** X11. When the store answers, a token signed with the service secret
    under HS256 whose only claims are a subject, the name of a stored user,
    and possibly an expiry is accepted at every instant whose whole second
    is before the expiry it states, and at every instant when it states
    none; the user returned is a stored user of that name. *)
Theorem get_current_user_complete (payload : jwt.Payload) (env : Env)
    (w : World) (user : User) :
  jwt.sub payload = Some (username user) →
  (∀ e, jwt.exp payload = Some e → datetime_utcnow env < e) →
  next_fault (db w) = None →
  user ∈ users (db w) →
  ∃ found,
    (get_current_user (jwt.encode payload (SECRET_KEY env) ALGORITHM) env w).1
      = Return found
    ∧ found ∈ users (db w)
    ∧ username found = username user.
Proof.
  intros Hsub Hexp Hup Hin.
  destruct (find_username_Some _ _ _ Hin eq_refl) as (u' & Hfind & Hin' & Hn).
  exists u'. split; [|done].
  rewrite (get_current_user_decoded _ _ _ payload (username user));
    [|by apply decode_Return|done].
  unfold db_users_find_one. rewrite driver_answers by done. simpl.
  by rewrite Hfind.
Qed.

(** X11 for a token of [alice] that states no expiry, a year after it could
    have been made. *)
Lemma get_current_user_complete_witness :
  (get_current_user
     (jwt.encode {| jwt.sub := Some "alice"%string; jwt.exp := None |}
        "your_secret_key" ALGORITHM)
     {| SECRET_KEY := "your_secret_key"; model := Some echo;
        time_time := 31537000; datetime_utcnow := 31537000;
        utcnow_microsecond := 0;
        datetime_now := 31537000 |}
     (boot alice_store)).1 = Return alice.
Proof.
  destruct (get_current_user_complete
              {| jwt.sub := Some "alice"%string; jwt.exp := None |}
              {| SECRET_KEY := "your_secret_key"; model := Some echo;
                 time_time := 31537000; datetime_utcnow := 31537000;
        utcnow_microsecond := 0;
                 datetime_now := 31537000 |}
              (boot alice_store) alice)
    as (found & Hfound & Hin & _).
  - reflexivity.
  - simpl. intros e He. discriminate He.
  - reflexivity.
  - simpl. left.
  - simpl in Hin. apply list_elem_of_singleton in Hin. rewrite <- Hin.
    exact Hfound.
Defined.

(** X12. [register] either returns its message, and then it appended
    exactly one user with the name, the address and the password as given
    and the creation instant read from the clock, or it raises, and then
    the users are as they were; the turns are never touched. On a store
    that answers and has no user of that name it returns its message. *)
Theorem register_outcome (user : UserCreate.t) (env : Env) (w : World) :
  let r := register user env w in
  (∀ message, r.1 = Return message →
     message = "User created successfully"%string
     ∧ users (db r.2) = users (db w) ++
         [{| _id := next_id (db w);
             username := UserCreate.username user;
             email := UserCreate.email user;
             password := UserCreate.password user;
             created_at := datetime_now env |}])
  ∧ (∀ e, r.1 = Raise e → users (db r.2) = users (db w))
  ∧ conversations (db r.2) = conversations (db w)
  ∧ (faults (db w) = [] →
     (∀ u, u ∈ users (db w) → username u ≠ UserCreate.username user) →
     r.1 = Return "User created successfully"%string).
Proof.
  step_routes. simpl. unfold next_fault.
  destruct (faults (db w)) as [|[msg|] rest] eqn:Hfaults; simpl; [| done |].
  - destruct (List.find _ _) as [u|] eqn:Hfind; simpl.
    + split; [done|]. split; [done|]. split; [done|]. intros _ Hfree.
      apply find_some in Hfind as [Hin Hname]. apply String.eqb_eq in Hname.
      apply list_elem_of_In in Hin. by destruct (Hfree u Hin).
    + split; [by intros ? [= <-]|]. done.
  - destruct (List.find _ _) as [u|] eqn:Hfind; simpl; [done|].
    destruct rest as [|[msg|] rest]; simpl; [|done|];
      (split; [by intros ? [= <-]|done]).
Qed.



(** X14. [login] returns a token only when the first stored user of that
    name has exactly the given password; it changes neither the collections
    nor the limiter. *)
Theorem login_sound (name pass : string) (env : Env) (w w' : World)
    (token : Token.t) :
  login name pass env w = (Return token, w') →
  (∃ before user after,
     users (db w) = before ++ user :: after
     ∧ (∀ u, u ∈ before → username u ≠ name)
     ∧ username user = name
     ∧ password user = pass)
  ∧ users (db w') = users (db w)
  ∧ conversations (db w') = conversations (db w)
  ∧ rate_limiter w' = rate_limiter w.
Proof.
  step_routes. simpl.
  destruct (next_fault (db w)); simpl; [done|].
  destruct (List.find _ _) as [u|] eqn:Hfind; simpl; [|done].
  destruct (String.eqb (password u) pass) eqn:Hpw; simpl; [|done].
  intros [= <- <-]. simpl. split; [|done].
  apply String.eqb_eq in Hpw.
  apply find_split in Hfind as (before & after & Husers & Hb & Hname).
  apply String.eqb_eq in Hname.
  exists before, u, after. split; [done|]. split; [|done].
  intros x Hx. apply String.eqb_neq. by apply Hb.
Qed.

(** X14 for the login of [alice]. *)
Lemma login_sound_witness :
  login "alice" "secret" sample_env (boot alice_store)
    = (Return {| Token.access_token := alice_token;
                 Token.token_type := "bearer" |},
       (login "alice" "secret" sample_env (boot alice_store)).2)
  ∧ users (db (login "alice" "secret" sample_env (boot alice_store)).2)
    = [alice].
Proof.
  assert (login "alice" "secret" sample_env (boot alice_store)
          = (Return {| Token.access_token := alice_token;
                       Token.token_type := "bearer" |},
             (login "alice" "secret" sample_env (boot alice_store)).2))
    as Hrun by reflexivity.
  split; [exact Hrun|].
  exact (proj1 (proj2 (login_sound _ _ _ _ _ _ Hrun))).
Defined.

(** ** Chat turns and history *)

(** X15. [chat] returns a response exactly when the model is loaded, gives
    at least one candidate for the message and the store takes the turn;
    the response is the first candidate, the other candidates are dropped,
    and the turn appended carries the same text, the user's id, the message
    and the instant read from the clock. *)
Theorem chat_success (message : Message.t) (user : User) (env : Env)
    (w : World) (response : ChatResponse.t) :
  (chat message user env w).1 = Return response
  ↔ (∃ generate rest,
       model env = Some generate
       ∧ generate (Message.message message) 100 true (7 # 10)%Q
         = Return (ChatResponse.message response :: rest))
    ∧ next_fault (db w) = None
    ∧ conversations (db (chat message user env w).2)
      = conversations (db w) ++
          [{| doc_id := next_id (db w); user_id := _id user;
              user_message := Message.message message;
              bot_response := ChatResponse.message response;
              timestamp := datetime_now env |}].
Proof.
  step_handlers. simpl.
  destruct (model env) as [generate|] eqn:Hmodel; simpl.
  2:{ split; [done|]. by intros [(g & rest & [=] & _) _]. }
  destruct (generate _ _ _ _) as [[|text rest]|e] eqn:Hgen; simpl.
  1,3: split; [done|]; intros [(g & rest' & [= <-] & Hg) _]; congruence.
  destruct (next_fault (db w)) as [msg|]; simpl.
  { split; [done|]. by intros (_ & [=] & _). }
  split.
  - intros [= <-]. simpl. split; [|done]. eauto.
  - intros [(g & rest' & [= <-] & Hg) _].
    destruct response as [text']. simpl in Hg. congruence.
Qed.

(** X16. When the loaded model returns no candidate, [chat] raises the 500
    error with the text of Python's index error, and changes nothing: no
    insertion is attempted. *)
Theorem chat_no_candidate (message : Message.t) (user : User) (env : Env)
    (w : World) (generate : Pipeline) :
  model env = Some generate →
  generate (Message.message message) 100 true (7 # 10)%Q = Return [] →
  chat message user env w
    = (Raise (HTTPException 500 "list index out of range" None), w).
Proof.
  intros Hmodel Hgen. step_handlers. simpl. rewrite Hmodel. simpl.
  rewrite Hgen. simpl. done.
Qed.

(** X16 with a model that returns the empty list. *)
Lemma chat_no_candidate_witness :
  model mute_env = Some mute
  ∧ mute (Message.message hello) 100 true (7 # 10)%Q = Return []
  ∧ chat hello alice mute_env (boot alice_store)
    = (Raise (HTTPException 500 "list index out of range" None),
       boot alice_store).
Proof.
  split; [reflexivity|]. split; [reflexivity|].
  apply (chat_no_candidate hello alice mute_env (boot alice_store) mute);
    reflexivity.
Defined.

(** X17. A chat turn of one user changes no other user's history: on a
    store that answers, [get_history] of a user with another id returns
    after the turn what it returned before. *)
Theorem chat_keeps_other_histories (message : Message.t) (author reader : User)
    (env env' : Env) (w : World) :
  _id author ≠ _id reader →
  faults (db w) = [] →
  (get_history reader env' (chat message author env w).2).1
    = (get_history reader env' w).1.
Proof.
  intros Hne Hfaults. step_handlers. simpl. unfold next_fault.
  rewrite Hfaults.
  destruct (model env) as [generate|]; simpl; [|by rewrite Hfaults].
  destruct (generate _ _ _ _) as [[|text rest]|e]; simpl;
    rewrite ?Hfaults; simpl; [done| |done].
  rewrite filter_app, filter_cons_False, filter_nil, app_nil_r by done.
  done.
Qed.

(** X17 on the store that holds a turn of [alice]: a turn of [bob] leaves
    her history as it was. *)
Lemma chat_keeps_other_histories_witness :
  _id bob ≠ _id alice
  ∧ faults (db (boot skewed_store)) = []
  ∧ (get_history alice sample_env
       (chat hello bob sample_env (boot skewed_store)).2).1
    = Return [history_entry earlier_turn].
Proof.
  assert (_id bob ≠ _id alice) as Hne by (simpl; discriminate).
  split; [exact Hne|]. split; [reflexivity|].
  rewrite (chat_keeps_other_histories hello bob alice sample_env sample_env
             (boot skewed_store) Hne); reflexivity.
Defined.

(** X18. When the store answers, what [get_history] returns and the turns
    of the user it leaves out make up the turns of the user, and no turn
    left out is newer than a turn returned; with at most 50 turns of the
    user nothing is left out. *)
Theorem history_keeps_newest (user : User) (env : Env) (w : World) :
  next_fault (db w) = None →
  ∃ docs rest : list Conversation,
    (get_history user env w).1 = Return (history_entry <$> docs)
    ∧ docs ++ rest
        ≡ₚ filter (λ doc, user_id doc = _id user) (conversations (db w))
    ∧ (∀ d r, d ∈ docs → r ∈ rest → timestamp r ≤ timestamp d)
    ∧ ((length (filter (λ doc, user_id doc = _id user)
                  (conversations (db w))) ≤ 50)%nat → rest = []).
Proof.
  intros Hup.
  set (mine := filter (λ doc, user_id doc = _id user) (conversations (db w))).
  exists (take 50 (sort_desc mine)), (drop 50 (sort_desc mine)).
  split; [|split; [|split]].
  - step_handlers. simpl. by rewrite Hup.
  - rewrite take_drop. apply sort_desc_Permutation.
  - intros d r Hd Hr. pose proof (sort_desc_sorted mine) as Hsorted.
    rewrite <- (take_drop 50 (sort_desc mine)) in Hsorted.
    by apply (StronglySorted_app_1_elem_of _ _ _ d r Hsorted).
  - intros Hfew. apply drop_ge. by rewrite sort_desc_Permutation.
Qed.

(** X18 on the store that holds one turn of [alice]. *)
Lemma history_keeps_newest_witness :
  next_fault (db (boot skewed_store)) = None
  ∧ ∃ docs rest : list Conversation,
      (get_history alice sample_env (boot skewed_store)).1
        = Return (history_entry <$> docs)
      ∧ docs ++ rest
          ≡ₚ filter (λ doc, user_id doc = _id alice)
               (conversations (db (boot skewed_store)))
      ∧ rest = [].
Proof.
  split; [reflexivity|].
  destruct (history_keeps_newest alice sample_env (boot skewed_store))
    as (docs & rest & Hres & Hperm & _ & Hall); [reflexivity|].
  exists docs, rest. split; [exact Hres|]. split; [exact Hperm|].
  apply Hall. vm_compute. repeat constructor.
Defined.

(** X19. After a successful [chat] of a user who had fewer than 50 turns,
    on a store that answers, [get_history] of that user holds the new turn,
    whatever the clocks read. *)
Theorem chat_then_history_holds_turn (message : Message.t) (user : User)
    (env env' : Env) (w w' : World) (response : ChatResponse.t) :
  chat message user env w = (Return response, w') →
  next_fault (db w') = None →
  (length (filter (λ doc, user_id doc = _id user) (conversations (db w)))
     < 50)%nat →
  ∃ history,
    (get_history user env' w').1 = Return history
    ∧ {| ChatHistory.id := next_id (db w);
         ChatHistory.user_message := Message.message message;
         ChatHistory.bot_response := ChatResponse.message response;
         ChatHistory.timestamp := datetime_now env |} ∈ history.
Proof.
  intros Hchat Hup Hfew. apply chat_Return in Hchat.
  eexists. split; [step_handlers; simpl; by rewrite Hup|].
  rewrite Hchat, filter_app, filter_cons_True, filter_nil by done.
  set (new := Build_Conversation _ _ _ _ _).
  set (mine := filter _ (conversations (db w)) ++ [new]).
  rewrite take_ge.
  2:{ rewrite sort_desc_Permutation. unfold mine. rewrite length_app. simpl.
      lia. }
  apply (list_elem_of_fmap_2 history_entry _ new).
  rewrite sort_desc_Permutation. unfold mine. apply elem_of_app. right.
  by left.
Qed.

(** X19 on the store where [alice] has a turn stamped 100, for a turn made
    when the clock reads 50. *)
Lemma chat_then_history_holds_turn_witness :
  ∃ history,
    (get_history alice sample_env
       (chat hello alice sample_env (boot skewed_store)).2).1 = Return history
    ∧ {| ChatHistory.id := 2%N; ChatHistory.user_message := "hello";
         ChatHistory.bot_response := "hello";
         ChatHistory.timestamp := 50 |} ∈ history.
Proof.
  apply (chat_then_history_holds_turn hello alice sample_env sample_env
           (boot skewed_store)
           (chat hello alice sample_env (boot skewed_store)).2
           {| ChatResponse.message := "hello" |}).
  - reflexivity.
  - reflexivity.
  - vm_compute. repeat constructor.
Defined.

(** ** The launcher *)

(** Case analysis on the flags and on what the host offers. *)
Ltac launch args host :=
  destruct args as [bport fport [|] [|] [|]];
  destruct host as [exe [imp|] [|] [uv|] [|] [| |npm] [cd|] [np|]];
  try reflexivity.


(** X21. [main] opens the browser, on the frontend page and then on the
    backend's documentation page, exactly when [--no-browser] is not given
    and each server either started or was skipped by a flag; otherwise it
    opens nothing. *)
Theorem main_opened (args : Launcher.Args) (host : Launcher.Host) :
  Launcher.opened (Launcher.main args host).2 =
    if (Launcher.frontend_only args
        || Launcher.dependencies_installed host
           && Launcher.backend_can_start host)
       && (Launcher.backend_only args || Launcher.frontend_can_start host)
       && negb (Launcher.no_browser args)
    then Launcher.pages args
    else [].
Proof. launch args host. Qed.

(** X22. [main] reports success and stays up until interrupted exactly
    when [--frontend-only] is given, or the dependencies are installed and
    any of these holds: [--backend-only] is given, the backend started, the
    frontend started. *)
Theorem main_stays_up (args : Launcher.Args) (host : Launcher.Host) :
  Launcher.stays_up (Launcher.main args host).2 =
    Launcher.frontend_only args
    || Launcher.dependencies_installed host
       && (Launcher.backend_only args
           || Launcher.backend_can_start host
           || Launcher.frontend_can_start host).
Proof. launch args host. Qed.

(** X23. With [--frontend-only], what [main] does is the same whatever the
    interpreter path, the dependencies and the backend file of the host:
    neither is looked at. *)
Theorem main_frontend_only_ignores_backend (args : Launcher.Args)
    (host host' : Launcher.Host) :
  Launcher.frontend_only args = true →
  Launcher.frontend_dir_exists host = Launcher.frontend_dir_exists host' →
  Launcher.npm_version host = Launcher.npm_version host' →
  Launcher.chdir_error host = Launcher.chdir_error host' →
  Launcher.npm_Popen_error host = Launcher.npm_Popen_error host' →
  Launcher.main args host = Launcher.main args host'.
Proof.
  destruct args as [bport fport bonly fonly nob].
  destruct host as [exe imp bp uv fd nv cd np].
  destruct host' as [exe' imp' bp' uv' fd' nv' cd' np'].
  simpl. intros -> <- <- <- <-. reflexivity.
Qed.

(** X23 on a host without the Python packages and the backend file. *)
Lemma main_frontend_only_ignores_backend_witness :
  Launcher.frontend_only (flags false true false) = true
  ∧ Launcher.main (flags false true false) bare_host
    = Launcher.main (flags false true false) ready_host
  ∧ Launcher.started (Launcher.main (flags false true false) bare_host).2
    = [["npm"; "start"]%string].
Proof.
  split; [reflexivity|]. split; [|vm_compute; reflexivity].
  apply (main_frontend_only_ignores_backend (flags false true false)
           bare_host ready_host); reflexivity.
Defined.

(** X24. With both [--backend-only] and [--frontend-only], [main] starts
    no process on any host, yet it reports success, stays up until
    interrupted and, unless [--no-browser] is given, opens both pages. *)
Theorem main_both_only_flags (args : Launcher.Args) (host : Launcher.Host) :
  Launcher.backend_only args = true →
  Launcher.frontend_only args = true →
  Launcher.started (Launcher.main args host).2 = []
  ∧ Launcher.stays_up (Launcher.main args host).2 = true
  ∧ (Launcher.newline +:+ "🎉 Application startup successful!")%string
      ∈ Launcher.printed (Launcher.main args host).2
  ∧ Launcher.opened (Launcher.main args host).2
    = if Launcher.no_browser args then [] else Launcher.pages args.
Proof.
  destruct args as [bport fport bonly fonly [|]]; simpl; intros -> ->;
    (split; [reflexivity|]); (split; [reflexivity|]);
    (split; [|reflexivity]); simpl; repeat first [by left|right].
Qed.

(** X24 on a host with nothing in place. *)
Lemma main_both_only_flags_witness :
  Launcher.backend_only (flags true true false) = true
  ∧ Launcher.frontend_only (flags true true false) = true
  ∧ Launcher.started (Launcher.main (flags true true false) bare_host).2 = []
  ∧ Launcher.opened (Launcher.main (flags true true false) bare_host).2
    = ["http://localhost:3000"; "http://localhost:8000/docs"]%string.
Proof.
  destruct (main_both_only_flags (flags true true false) bare_host)
    as (Hstarted & _ & _ & Hopened); [reflexivity|reflexivity|].
  split; [reflexivity|]. split; [reflexivity|].
  split; [exact Hstarted|exact Hopened].
Defined.

(** X25. With [--backend-only] on a host that has the dependencies but
    cannot start the backend, [main] starts nothing and opens nothing, and
    still reports success and stays up until interrupted. *)
Theorem main_backend_only_failure (args : Launcher.Args)
    (host : Launcher.Host) :
  Launcher.backend_only args = true →
  Launcher.frontend_only args = false →
  Launcher.dependencies_installed host = true →
  Launcher.backend_can_start host = false →
  Launcher.started (Launcher.main args host).2 = []
  ∧ Launcher.opened (Launcher.main args host).2 = []
  ∧ Launcher.stays_up (Launcher.main args host).2 = true
  ∧ (Launcher.newline +:+ "🎉 Application startup successful!")%string
      ∈ Launcher.printed (Launcher.main args host).2.
Proof.
  destruct args as [bport fport bonly fonly nob].
  destruct host as [exe [imp|] [|] [uv|] fd nv cd np]; simpl;
    intros -> -> Hdeps Hback; try discriminate;
    (split; [reflexivity|]); (split; [reflexivity|]);
    (split; [reflexivity|]); simpl; repeat first [by left|right].
Qed.

(** X25 on a host without the backend file. *)
Lemma main_backend_only_failure_witness :
  Launcher.backend_only (flags true false false) = true
  ∧ Launcher.frontend_only (flags true false false) = false
  ∧ Launcher.dependencies_installed no_backend_host = true
  ∧ Launcher.backend_can_start no_backend_host = false
  ∧ Launcher.started (Launcher.main (flags true false false)
                        no_backend_host).2 = []
  ∧ Launcher.stays_up (Launcher.main (flags true false false)
                         no_backend_host).2 = true.
Proof.
  destruct (main_backend_only_failure (flags true false false)
              no_backend_host)
    as (Hstarted & _ & Hup & _);
    [reflexivity|reflexivity|reflexivity|reflexivity|].
  do 4 (split; [reflexivity|]). split; [exact Hstarted|exact Hup].
Defined.

